(** * Backtest system: order execution, ledger and holdings

    A shallow embedding of the core of the backtest system
    ([execution.py], [stats.py] and the order processing of
    [strategies/reversal.py]) together with the properties of the order
    execution engine, the equity curve and the cost-basis bookkeeping.

    Modelling conventions.
    - Python [float] (and the numpy floats read from a data frame) are the
      exact rationals [Q]; Python's [==] and [<=] on numbers are [Qeq] and
      [Qle].  Rounding, infinities and NaN are outside the model, and a
      division by zero yields [0] as [Qdiv] does.
    - A [datetime.date] is its proleptic Gregorian ordinal
      ([date.toordinal()], day 1 is 0001-01-01, a Monday); dates are
      compared by comparing ordinals.
    - A Python exception is a value of [exn]; a function that can raise
      returns the exception or its result, and a loop that mutates the
      order book in place returns the book as it is when the loop stops.
    - An order object is the record of its attributes, and an assignment
      to an attribute builds the updated record.  [Order] defines no
      [__eq__], so that [list.remove] compares by identity; here it
      compares all attributes.  The loop of [execute_orders] reads only
      attributes that it never assigns to (initiation date, ticker,
      quantity, class and limit price), so that it treats objects with
      equal attributes alike, and an object held twice like two equal
      records. *)

From Stdlib Require Import ZArith QArith Lia List Sorted.
From stdpp Require Import base decidable option list strings gmap.

Import ListNotations.
Local Open Scope Z_scope.

(** ** Dates *)

Module Calendar.

(** A [datetime.date], as [date.toordinal()]. *)
Definition date := Z.

(** [datetime._is_leap]. *)
Definition is_leap (year : Z) : bool :=
  (year mod 4 =? 0) && (negb (year mod 100 =? 0) || (year mod 400 =? 0)).

(** [datetime._days_before_year]. *)
Definition days_before_year (year : Z) : Z :=
  let y := year - 1 in
  y * 365 + y / 4 - y / 100 + y / 400.

(** [datetime._days_in_month]. *)
Definition days_in_month (year month : Z) : Z :=
  if (month =? 2) && is_leap year then 29
  else nth (Z.to_nat month) [0; 31; 28; 31; 30; 31; 30; 31; 31; 30; 31; 30; 31] 0.

(** [datetime._days_before_month]. *)
Definition days_before_month (year month : Z) : Z :=
  nth (Z.to_nat month) [0; 0; 31; 59; 90; 120; 151; 181; 212; 243; 273; 304; 334] 0
  + (if (2 <? month) && is_leap year then 1 else 0).

(** [datetime._ymd2ord]: the ordinal of [date(year, month, day)]. *)
Definition ymd2ord (year month day : Z) : date :=
  days_before_year year + days_before_month year month + day.

(** [date.weekday()]: Monday is 0 and Sunday is 6. *)
Definition weekday (dt : date) : Z := (dt + 6) mod 7.

End Calendar.

Export Calendar.

(** ** Orders ([execution.py]) *)

Inductive Action := SELL | BUY.

(** Iterating over the enumeration class ([for action in Action]) visits
    its members in definition order: [SELL = 1] comes before [BUY = 2]. *)
Definition Action_members : list Action := [SELL; BUY].

Inductive Status := OPEN | COMPLETE | CANCELLED.

Inductive TimeInForce := DAY | GTC | IOC | FOK.

(** The class of an order object with the attributes its constructor adds
    to those of [Order]. *)
Inductive OrderClass :=
| PlainOrder
| MarketOrder
| LimitOrder (limit_price : Q) (time_in_force : TimeInForce)
| StopLimitOrder (stop_price limit_price : Q) (time_in_force : TimeInForce).

Record Order := mkOrder {
  initiated_at : date;
  executed_at : option date;
  action : Action;
  status : Status;
  ticker : string;
  quantity : Z;
  fill_price : option Q;
  commission_paid : Q;
  order_class : OrderClass
}.

(** [Order.__init__] and the constructors of its subclasses. *)
Definition new_Order (cls : OrderClass) (dt : date) (a : Action)
    (t : string) (q : Z) : Order :=
  {| initiated_at := dt; executed_at := None; action := a; status := OPEN;
     ticker := t; quantity := q; fill_price := None; commission_paid := 0%Q;
     order_class := cls |}.

Definition new_MarketOrder := new_Order MarketOrder.

Definition new_LimitOrder (dt : date) (a : Action) (t : string) (q : Z)
    (limit_price : Q) (tif : TimeInForce) : Order :=
  new_Order (LimitOrder limit_price tif) dt a t q.

Definition new_StopLimitOrder (dt : date) (a : Action) (t : string) (q : Z)
    (stop_price limit_price : Q) (tif : TimeInForce) : Order :=
  new_Order (StopLimitOrder stop_price limit_price tif) dt a t q.

#[global] Instance Action_eq_dec : EqDecision Action.
Proof. solve_decision. Defined.

#[global] Instance Status_eq_dec : EqDecision Status.
Proof. solve_decision. Defined.

#[global] Instance TimeInForce_eq_dec : EqDecision TimeInForce.
Proof. solve_decision. Defined.

#[global] Instance Q_eq_dec : EqDecision Q.
Proof. solve_decision. Defined.

#[global] Instance OrderClass_eq_dec : EqDecision OrderClass.
Proof. solve_decision. Defined.

#[global] Instance Order_eq_dec : EqDecision Order.
Proof. solve_decision. Defined.

(** [l.remove(x)]: the list without its first item equal to [x], and
    [None] when Python raises [ValueError] because there is none. *)
Fixpoint list_remove `{EqDecision A} (x : A) (l : list A) : option (list A) :=
  match l with
  | [] => None
  | y :: l' =>
      if decide (x = y) then Some l'
      else match list_remove x l' with
           | None => None
           | Some r => Some (y :: r)
           end
  end.

(** The exceptions the embedded code can raise. *)
Inductive exn := KeyError | AttributeError | ValueError | TypeError | IndexError.

(** The result of a call that returns a value or raises. *)
Inductive result (A : Type) :=
| Ok (a : A)
| Raise (e : exn).

Arguments Ok {A} a.
Arguments Raise {A} e.

(** ** Market data

    The row of one ticker in the day's data frame, with the two columns
    the broker reads: ["Price"] (the close) and ["from Open"]. *)
Record Quote := mkQuote {
  Price : Q;
  from_Open : Q
}.

(** [data.loc[ticker, column]] for the [data] argument of
    [execute_orders], a data frame indexed by ticker.  The driver hands
    over [None] when the day's file could not be read: [None] has no
    attribute [loc]. *)
Definition data_loc (data : option (gmap string Quote)) (t : string) : result Quote :=
  match data with
  | None => Raise AttributeError
  | Some df =>
      match df !! t with
      | None => Raise KeyError
      | Some row => Ok row
      end
  end.

(** The data frame has a row for the ticker of [order]. *)
Definition has_data (data : option (gmap string Quote)) (order : Order) : Prop :=
  exists row, data_loc data (ticker order) = Ok row.

(** ** The order book

    [order_book[action][status]] is a list of orders. *)
Record Buckets := mkBuckets {
  open_orders : list Order;
  complete_orders : list Order;
  cancelled_orders : list Order
}.

Record OrderBook := mkOrderBook {
  book_BUY : Buckets;
  book_SELL : Buckets
}.

(** The order book set up by [BacktestBroker.__init__]. *)
Definition empty_book : OrderBook :=
  {| book_BUY := mkBuckets [] [] []; book_SELL := mkBuckets [] [] [] |}.

Definition side (book : OrderBook) (a : Action) : Buckets :=
  match a with BUY => book_BUY book | SELL => book_SELL book end.

(** [order_book[a][s]]. *)
Definition bucket (book : OrderBook) (a : Action) (s : Status) : list Order :=
  match s with
  | OPEN => open_orders (side book a)
  | COMPLETE => complete_orders (side book a)
  | CANCELLED => cancelled_orders (side book a)
  end.

Definition set_status_bucket (b : Buckets) (s : Status) (l : list Order) : Buckets :=
  match s with
  | OPEN => mkBuckets l (complete_orders b) (cancelled_orders b)
  | COMPLETE => mkBuckets (open_orders b) l (cancelled_orders b)
  | CANCELLED => mkBuckets (open_orders b) (complete_orders b) l
  end.

(** The book after the list [order_book[a][s]] has been changed to [l]. *)
Definition set_bucket (book : OrderBook) (a : Action) (s : Status)
    (l : list Order) : OrderBook :=
  match a with
  | BUY => mkOrderBook (set_status_bucket (book_BUY book) s l) (book_SELL book)
  | SELL => mkOrderBook (book_BUY book) (set_status_bucket (book_SELL book) s l)
  end.

(** [BacktestBroker.place_order]. *)
Definition place_order (book : OrderBook) (order : Order) : OrderBook :=
  set_bucket book (action order) OPEN (bucket book (action order) OPEN ++ [order]).

(** [BacktestBroker.is_business_day]: [pd.bdate_range(dt, dt)] with its
    default frequency holds [dt] when it falls on Monday to Friday and is
    empty otherwise. *)
Definition is_business_day (dt : date) : bool := weekday dt <? 5.

(** ** Executing orders *)

(** The local state of a call of [execute_orders]: the order book, which
    the call mutates in place, the list [executed_orders] built so far and,
    as a ghost field, the orders evaluated so far with the bucket they
    were taken from.  An order is evaluated when the loop body gets past
    the guard on its initiation date and reads its market data. *)
Record CallState := mkCallState {
  order_book : OrderBook;
  executed_orders : list Order;
  evaluated : list (Action * Order)
}.

(** How a call ends: it returns, or an exception leaves it. *)
Inductive Outcome := Returned | Raised (e : exn).

Section Broker.

(** [self.commission], the function handed to [BacktestBroker]. *)
Variable commission : Q -> Q -> Q.

(** [BacktestBroker.verify_funds]. *)
Definition verify_funds (quantity : Z) (fill_price cash : Q) : bool :=
  Qle_bool (inject_Z quantity * fill_price
            + commission (inject_Z quantity) fill_price) cash.

(** The branches on the class of the order in the body of the loop:
    the price at which the order fills, if it does. *)
Definition fill_decision (cash : Q) (order : Order) (row : Quote) : option Q :=
  let close_price := Price row in
  let open_price := (close_price / (1 + from_Open row))%Q in
  match order_class order with
  | MarketOrder =>
      if verify_funds (quantity order) open_price cash
      then Some open_price else None
  | LimitOrder limit_price _ =>
      if verify_funds (quantity order) limit_price cash
         && (Qle_bool open_price limit_price && Qle_bool limit_price close_price)
      then Some limit_price else None
  | _ => None
  end.

(** The assignments to a filled order. *)
Definition completed (order : Order) (current_date : date) (price : Q) : Order :=
  {| initiated_at := initiated_at order;
     executed_at := Some current_date;
     action := action order;
     status := COMPLETE;
     ticker := ticker order;
     quantity := quantity order;
     fill_price := Some price;
     commission_paid := commission (inject_Z (quantity order)) price;
     order_class := order_class order |}.

(** The body of the inner loop for the order [order] of the bucket
    [order_book[a][OPEN]]. *)
Definition execute_order (data : option (gmap string Quote)) (current_date : date)
    (cash : Q) (a : Action) (order : Order) (st : CallState)
    : Outcome * CallState :=
  if initiated_at order >=? current_date then (Returned, st)
  else
    let st := mkCallState (order_book st) (executed_orders st)
                          (evaluated st ++ [(a, order)]) in
    match data_loc data (ticker order) with
    | Raise e => (Raised e, st)
    | Ok row =>
        match fill_decision cash order row with
        | None => (Returned, st)
        | Some price =>
            match list_remove order (bucket (order_book st) a OPEN) with
            | None => (Raised ValueError, st)
            | Some still_open =>
                let order' := completed order current_date price in
                let book := set_bucket (order_book st) a OPEN still_open in
                let book := set_bucket book a COMPLETE
                              (bucket book a COMPLETE ++ [order']) in
                (Returned,
                 mkCallState book (executed_orders st ++ [order']) (evaluated st))
            end
        end
    end.

(** The state after the order [order] of bucket [a] has been logged as
    evaluated. *)
Definition logged (a : Action) (order : Order) (st : CallState) : CallState :=
  mkCallState (order_book st) (executed_orders st) (evaluated st ++ [(a, order)]).

(** The state after [order] has left [order_book[a][OPEN]], which
    becomes [still_open], for [order_book[a][COMPLETE]] as [order']. *)
Definition moved (a : Action) (order order' : Order) (still_open : list Order)
    (st : CallState) : CallState :=
  mkCallState
    (set_bucket (set_bucket (order_book st) a OPEN still_open) a COMPLETE
       (bucket (order_book st) a COMPLETE ++ [order']))
    (executed_orders st ++ [order'])
    (evaluated st ++ [(a, order)]).

(** The paths through the body of the inner loop, as a relation between
    the state before, the outcome and the state after. *)
Inductive order_step (data : option (gmap string Quote)) (current_date : date)
    (cash : Q) (a : Action) (order : Order) (st : CallState)
  : Outcome -> CallState -> Prop :=
| step_not_yet :
    current_date <= initiated_at order ->
    order_step data current_date cash a order st Returned st
| step_no_data e :
    initiated_at order < current_date ->
    data_loc data (ticker order) = Raise e ->
    order_step data current_date cash a order st (Raised e) (logged a order st)
| step_stays_open row :
    initiated_at order < current_date ->
    data_loc data (ticker order) = Ok row ->
    fill_decision cash order row = None ->
    order_step data current_date cash a order st Returned (logged a order st)
| step_not_in_bucket row price :
    initiated_at order < current_date ->
    data_loc data (ticker order) = Ok row ->
    fill_decision cash order row = Some price ->
    list_remove order (bucket (order_book st) a OPEN) = None ->
    order_step data current_date cash a order st (Raised ValueError)
      (logged a order st)
| step_fill row price still_open :
    initiated_at order < current_date ->
    data_loc data (ticker order) = Ok row ->
    fill_decision cash order row = Some price ->
    list_remove order (bucket (order_book st) a OPEN) = Some still_open ->
    order_step data current_date cash a order st Returned
      (moved a order (completed order current_date price) still_open st).

(** The inner loop over a copy [todo] of the bucket. *)
Fixpoint execute_bucket (data : option (gmap string Quote)) (current_date : date)
    (cash : Q) (a : Action) (todo : list Order) (st : CallState)
    : Outcome * CallState :=
  match todo with
  | [] => (Returned, st)
  | order :: todo' =>
      match execute_order data current_date cash a order st with
      | (Returned, st') => execute_bucket data current_date cash a todo' st'
      | stop => stop
      end
  end.

(** The outer loop over the actions. *)
Fixpoint execute_actions (data : option (gmap string Quote)) (current_date : date)
    (cash : Q) (actions : list Action) (st : CallState)
    : Outcome * CallState :=
  match actions with
  | [] => (Returned, st)
  | a :: actions' =>
      match execute_bucket data current_date cash a
              (bucket (order_book st) a OPEN) st with
      | (Returned, st') => execute_actions data current_date cash actions' st'
      | stop => stop
      end
  end.

(** [BacktestBroker.execute_orders].  When the outcome is [Returned]
    the list [executed_orders] of the final state is the value
    returned. *)
Definition execute_orders (book : OrderBook) (data : option (gmap string Quote))
    (current_date : date) (cash : Q) : Outcome * CallState :=
  if negb (is_business_day current_date) then (Returned, mkCallState book [] [])
  else execute_actions data current_date cash Action_members
         (mkCallState book [] []).

(** [order] fills at [price] when it is evaluated: it was placed before
    [current_date], the data frame has a row for its ticker and the
    branch of its class is taken. *)
Definition fills_at (data : option (gmap string Quote)) (current_date : date)
    (cash : Q) (order : Order) (price : Q) : Prop :=
  initiated_at order < current_date /\
  exists row, data_loc data (ticker order) = Ok row /\
              fill_decision cash order row = Some price.

(** What the state of a call on the order book [book] satisfies at
    every point of the loops. *)
Record call_invariant (book : OrderBook) (data : option (gmap string Quote))
    (current_date : date) (cash : Q) (st : CallState) : Prop := {
  inv_open : forall a order,
    In order (bucket (order_book st) a OPEN) -> In order (bucket book a OPEN);
  inv_executed : forall order',
    In order' (executed_orders st) ->
    exists a order price,
      In order (bucket book a OPEN) /\
      fills_at data current_date cash order price /\
      order' = completed order current_date price;
  inv_evaluated : forall a order,
    In (a, order) (evaluated st) ->
    In order (bucket book a OPEN) /\ initiated_at order < current_date;
  inv_complete : forall a order',
    In order' (bucket (order_book st) a COMPLETE) ->
    In order' (bucket book a COMPLETE) \/ In order' (executed_orders st);
  inv_cancelled : forall a,
    bucket (order_book st) a CANCELLED = bucket book a CANCELLED
}.

End Broker.

(** ** The ledger ([stats.py]) *)

(** A row label of the equity curve: the constructor labels the first
    row with the string ["Date"], every later row is labelled with the
    date it is written for. *)
Inductive RowLabel := LabelDate | LabelOf (dt : date).

#[global] Instance RowLabel_eq_dec : EqDecision RowLabel.
Proof. solve_decision. Defined.

(** A row of the equity curve. *)
Record LedgerEntry := mkLedgerEntry {
  Date : date;
  Cash : Q;
  Equity : Q;
  Total_Value : Q;
  Commission_Paid : Q
}.

(** [StatsHandler.__init__]: the data frame [equity_curve], as the list
    of its labelled rows. *)
Definition StatsHandler (start_date : date) (cash : Q) : list (RowLabel * LedgerEntry) :=
  [(LabelDate,
    {| Date := start_date; Cash := cash; Equity := 0; Total_Value := cash;
       Commission_Paid := 0 |})].

(** [equity_curve.iloc[-1]]. *)
Definition iloc_last (equity_curve : list (RowLabel * LedgerEntry)) : result LedgerEntry :=
  match last equity_curve with
  | None => Raise IndexError
  | Some (_, row) => Ok row
  end.

(** [equity_curve.loc[label] = row]: the rows with that label are
    overwritten where they stand; when there is none the row is added at
    the end. *)
Definition loc_set (label : RowLabel) (row : LedgerEntry)
    (equity_curve : list (RowLabel * LedgerEntry)) : list (RowLabel * LedgerEntry) :=
  if existsb (fun r => bool_decide (fst r = label)) equity_curve
  then map (fun r => if decide (fst r = label) then (label, row) else r) equity_curve
  else equity_curve ++ [(label, row)].

(** [StatsHandler.update_on_order]. *)
Definition update_on_order (equity_curve : list (RowLabel * LedgerEntry))
    (current_date : date) (order : Order) : result (list (RowLabel * LedgerEntry)) :=
  match iloc_last equity_curve with
  | Raise e => Raise e
  | Ok prev =>
      let updated_cash := (Cash prev - commission_paid order)%Q in
      let updated_commission := (Commission_Paid prev + commission_paid order)%Q in
      let updated_equity := Equity prev in
      match fill_price order with
      | None => Raise TypeError
      | Some price =>
          let amount := (inject_Z (quantity order) * price)%Q in
          let '(updated_cash, updated_equity) :=
            match action order with
            | SELL => ((updated_cash + amount)%Q, (updated_equity - amount)%Q)
            | BUY => ((updated_cash - amount)%Q, (updated_equity + amount)%Q)
            end in
          Ok (loc_set (LabelOf current_date)
                {| Date := current_date;
                   Cash := updated_cash;
                   Equity := updated_equity;
                   Total_Value := (updated_cash + updated_equity)%Q;
                   Commission_Paid := updated_commission |}
                equity_curve)
      end
  end.

(** [StatsHandler.daily_stats]. *)
Definition daily_stats (equity_curve : list (RowLabel * LedgerEntry)) : result LedgerEntry :=
  iloc_last equity_curve.

(** The equity curves a ledger goes through: the one its constructor
    seeds, and those left by the calls of [update_on_order] that
    return. *)
Inductive ledger_state (start_date : date) (cash : Q)
  : list (RowLabel * LedgerEntry) -> Prop :=
| ledger_init : ledger_state start_date cash (StatsHandler start_date cash)
| ledger_update equity_curve current_date order equity_curve' :
    ledger_state start_date cash equity_curve ->
    update_on_order equity_curve current_date order = Ok equity_curve' ->
    ledger_state start_date cash equity_curve'.

(** ** Holdings ([strategies/reversal.py]) *)

Module Reversal.

(** A row of the data frame [portfolio], with the columns that
    [process_orders] writes for a fill. *)
Record Holding := mkHolding {
  Price : Q;
  Quantity : Q;
  Cost : Q;
  Market_Value : Q
}.

(** The strategy's state that [process_orders] works on. *)
Record State := mkState {
  portfolio : gmap string Holding;
  equity_curve : list (RowLabel * LedgerEntry)
}.

(** The update of the portfolio in the body of the loop of
    [process_orders], for an order filled at [price]. *)
Definition update_holdings (portfolio : gmap string Holding) (order : Order)
    (price : Q) : gmap string Holding :=
  match portfolio !! ticker order with
  | Some h =>
      match action order with
      | SELL =>
          let quantity' := (Quantity h - inject_Z (quantity order))%Q in
          if Qeq_bool quantity' 0 then delete (ticker order) portfolio
          else <[ticker order := mkHolding price quantity' (Cost h) (Market_Value h)]>
                 portfolio
      | BUY =>
          let cost' := (Price h / Quantity h
                        + price / inject_Z (quantity order))%Q in
          <[ticker order :=
              mkHolding price (Quantity h + inject_Z (quantity order))%Q cost'
                        (Market_Value h)]> portfolio
      end
  | None =>
      <[ticker order :=
          mkHolding price (inject_Z (quantity order)) price
                    (inject_Z (quantity order) * price)%Q]> portfolio
  end.

(** The body of the loop of [process_orders] at [current_date]: the
    update of the portfolio, then [stats.update_on_order].  An order
    without fill price makes the arithmetic raise [TypeError].  The
    bookkeeping of the watch list is left out. *)
Definition process_order (current_date : date) (st : State) (order : Order)
    : result State :=
  match fill_price order with
  | None => Raise TypeError
  | Some price =>
      match update_on_order (equity_curve st) current_date order with
      | Raise e => Raise e
      | Ok curve' => Ok (mkState (update_holdings (portfolio st) order price) curve')
      end
  end.

(** The loop of [process_orders] over [executed_orders].  The
    statements after the loop, which add the rows labelled
    ["Market Value"] and ["Gain ($)"] and fill the column ["Gain (%)"],
    are left out. *)
Fixpoint process_orders (current_date : date) (st : State)
    (executed_orders : list Order) : result State :=
  match executed_orders with
  | [] => Ok st
  | order :: rest =>
      match process_order current_date st order with
      | Raise e => Raise e
      | Ok st' => process_orders current_date st' rest
      end
  end.

(** The cost basis the specification asks for after a further
    purchase: the quantity-weighted average of the old cost basis and
    the fill price. *)
Definition weighted_average_cost (old_cost old_qty fill_price fill_qty : Q) : Q :=
  ((old_cost * old_qty + fill_price * fill_qty) / (old_qty + fill_qty))%Q.

End Reversal.

(** ** Scenarios

    The data of the examples below: the first days of the sample run of
    [backtest.py], a flat commission and a few orders. *)

Module Scenario.

(** A commission of one unit of cash per order. *)
Definition flat_fee (quantity price : Q) : Q := 1.

(** 2021-08-01 is a Sunday. *)
Definition sunday : date := ymd2ord 2021 8 1.
Definition monday : date := ymd2ord 2021 8 2.
Definition tuesday : date := ymd2ord 2021 8 3.

(** Labor Day 2021, a Monday on which the exchanges are closed. *)
Definition labor_day : date := ymd2ord 2021 9 6.

(** ACME closes at 50 where it opened. *)
Definition quotes : gmap string Quote := {[ "ACME"%string := mkQuote 50 0 ]}.

(** ACME opens at 44 and closes at 46. *)
Definition quotes_44_46 : gmap string Quote :=
  {[ "ACME"%string := mkQuote 46 (1 # 22) ]}.

Definition buy_acme : Order := new_MarketOrder monday BUY "ACME" 100.
Definition sell_acme : Order := new_MarketOrder monday SELL "ACME" 10.
Definition sell_nope : Order := new_MarketOrder monday SELL "NOPE" 10.
Definition limit_45 : Order := new_LimitOrder monday BUY "ACME" 10 45 GTC.
Definition limit_40 : Order := new_LimitOrder monday BUY "ACME" 10 40 GTC.

(** An order for no shares of no ticker. *)
Definition empty_order : Order := new_MarketOrder monday BUY "" 0.

(** A book with a market order on each side. *)
Definition book_both : OrderBook :=
  place_order (place_order empty_book buy_acme) sell_acme.

(** A book whose first sell order is for a ticker without market data. *)
Definition book_nope : OrderBook :=
  place_order (place_order (place_order empty_book buy_acme) sell_nope) sell_acme.

(** A book with two limit orders. *)
Definition book_limits : OrderBook :=
  place_order (place_order empty_book limit_45) limit_40.

(** A holding of 100 shares of ACME bought at 10. *)
Definition holdings : gmap string Reversal.Holding :=
  {[ "ACME"%string := Reversal.mkHolding 10 100 10 1000 ]}.

(** A purchase of 100 more shares of ACME, filled at 20. *)
Definition bought_at_20 : Order :=
  completed flat_fee (new_MarketOrder monday BUY "ACME" 100) tuesday 20.

(** The market orders of [book_both] once filled at 50, and the limit
    order at 45 once filled. *)
Definition filled_buy : Order := completed flat_fee buy_acme tuesday 50.
Definition filled_sell : Order := completed flat_fee sell_acme tuesday 50.
Definition filled_limit : Order := completed flat_fee limit_45 tuesday 45.

(** The calls of [execute_orders] of the examples, with 100000 of cash. *)
Definition call_both : Outcome * CallState :=
  execute_orders flat_fee book_both (Some quotes) tuesday 100000.

Definition call_nope : Outcome * CallState :=
  execute_orders flat_fee book_nope (Some quotes) tuesday 100000.

Definition call_limits : Outcome * CallState :=
  execute_orders flat_fee book_limits (Some quotes_44_46) tuesday 100000.

(** The ledger seeded on Sunday with 100000 of cash, and its row for
    Tuesday once [filled_buy] has been applied. *)
Definition row_after_buy : LedgerEntry :=
  {| Date := tuesday; Cash := 94999; Equity := 5000; Total_Value := 99999;
     Commission_Paid := 1 |}.

Definition curve_after_buy : list (RowLabel * LedgerEntry) :=
  StatsHandler sunday 100000 ++ [(LabelOf tuesday, row_after_buy)].

End Scenario.

(** ** The effect of a call, order by order *)

Section Fills.

Variable commission : Q -> Q -> Q.

(** The decision of the body of the loop of [execute_orders] on one
    order: the price at which it fills, and [None] when the order is
    skipped (it was not placed before [current_date], the data frame has
    no row for its ticker, or the branch of its class is not taken). *)
Definition fill_price_of (data : option (gmap string Quote)) (current_date : date)
    (cash : Q) (order : Order) : option Q :=
  if initiated_at order >=? current_date then None
  else match data_loc data (ticker order) with
       | Ok row => fill_decision commission cash order row
       | Raise _ => None
       end.

(** The completions of the orders of a list that fill, in the order of
    the list. *)
Definition fills_of (data : option (gmap string Quote)) (current_date : date)
    (cash : Q) (orders : list Order) : list Order :=
  omap (fun order =>
          completed commission order current_date
            <$> fill_price_of data current_date cash order) orders.

(** The orders of a list that do not fill, in the order of the list. *)
Definition stays_of (data : option (gmap string Quote)) (current_date : date)
    (cash : Q) (orders : list Order) : list Order :=
  filter (fun order => fill_price_of data current_date cash order = None) orders.

End Fills.

(** [Position.__init__]: the attributes of the new object.  The
    constructor sets them only for a completed market or limit order, and
    the product of the quantity and a missing fill price raises. *)
Record PositionAttrs := mkPositionAttrs {
  position_ticker : string;
  position_quantity : Z;
  market_value : Q;
  change_in_investment : Q;
  daily_change_in_investment : Q
}.

Definition Position (order : Order) : result (option PositionAttrs) :=
  let attrs :=
    match status order with
    | COMPLETE =>
        match fill_price order with
        | None => Raise TypeError
        | Some price =>
            Ok (Some (mkPositionAttrs (ticker order) (quantity order)
                        (inject_Z (quantity order) * price) 0 0))
        end
    | _ => Ok None
    end in
  match order_class order with
  | MarketOrder => attrs
  | LimitOrder _ _ => attrs
  | _ => Ok None
  end.

(** Calls of [update_on_order] one after the other, each for a date and
    an order, as the strategy makes them day after day; the first call
    that raises ends the sequence. *)
Fixpoint update_on_orders (equity_curve : list (RowLabel * LedgerEntry))
    (fills : list (date * Order)) : result (list (RowLabel * LedgerEntry)) :=
  match fills with
  | [] => Ok equity_curve
  | (current_date, order) :: fills' =>
      match update_on_order equity_curve current_date order with
      | Raise e => Raise e
      | Ok equity_curve' => update_on_orders equity_curve' fills'
      end
  end.

(** What a filled order adds to the cash of the ledger before the
    commission: the amount of the fill for a sale, its opposite for a
    purchase. *)
Definition cash_flow (order : Order) : Q :=
  match fill_price order with
  | None => 0
  | Some price =>
      match action order with
      | SELL => inject_Z (quantity order) * price
      | BUY => - (inject_Z (quantity order) * price)
      end
  end.

(** Further data for the examples: a stop-limit order, and fills to be
    booked. *)

Module MoreScenarios.

Import Scenario.

Definition stop_limit : Order := new_StopLimitOrder monday BUY "ACME" 10 48 52 GTC.

Definition book_stop : OrderBook := place_order book_both stop_limit.

Definition call_stop : Outcome * CallState :=
  execute_orders flat_fee book_stop (Some quotes) tuesday 100000.

(** The fills of [call_both], to be booked on Tuesday. *)
Definition tuesday_fills : list (date * Order) :=
  [(tuesday, filled_sell); (tuesday, filled_buy)].

(** A ledger with a row for Monday followed by a row for Tuesday. *)
Definition monday_row : LedgerEntry :=
  {| Date := monday; Cash := 99999; Equity := 0; Total_Value := 99999;
     Commission_Paid := 1 |}.

Definition monday_front : list (RowLabel * LedgerEntry) :=
  StatsHandler sunday 100000 ++ [(LabelOf monday, monday_row)].

(** A sale of ACME booked for Monday, and the sale of the whole holding
    of the scenario. *)
Definition sold_on_monday : Order := completed flat_fee sell_acme monday 50.

Definition sell_all : Order := new_MarketOrder monday SELL "ACME" 100.

End MoreScenarios.


(** * Properties *)

(** ** Dates *)

Lemma weekday_range (dt : date) : 0 <= weekday dt < 7.
Proof. unfold weekday. apply Z.mod_pos_bound. lia. Qed.

(** The first day of the sample run is a Sunday, the next one a Monday. *)
Example weekday_2021_08_01 : weekday (ymd2ord 2021 8 1) = 6.
Proof. reflexivity. Qed.

Example weekday_2021_08_02 : weekday (ymd2ord 2021 8 2) = 0.
Proof. reflexivity. Qed.

(** ** Lists and buckets *)

Section ListRemove.

Context `{EqDecision A}.

Implicit Types (x y : A) (l : list A).

Lemma list_remove_Permutation x l l' :
  list_remove x l = Some l' -> l ≡ₚ x :: l'.
Proof.
  revert l'. induction l as [|z l IH]; intros l' H; simpl in H; [discriminate|].
  destruct (decide (x = z)) as [->|Hne].
  - injection H as <-. reflexivity.
  - destruct (list_remove x l) as [r|] eqn:E; [|discriminate].
    injection H as <-. rewrite (IH r eq_refl). apply Permutation_swap.
Qed.

Lemma list_remove_is_Some x l : In x l -> is_Some (list_remove x l).
Proof.
  induction l as [|z l IH]; intros H; simpl; [destruct H|].
  destruct (decide (x = z)); [eauto|].
  destruct H as [H|H]; [congruence|].
  destruct (IH H) as [r ->]. eauto.
Qed.

Lemma list_remove_In_ne x y l l' :
  list_remove x l = Some l' -> In y l -> y <> x -> In y l'.
Proof.
  revert l'. induction l as [|z l IH]; intros l' H Hy Hne; simpl in *; [discriminate|].
  destruct (decide (x = z)) as [->|Hxz].
  - injection H as <-. destruct Hy; [congruence | assumption].
  - destruct (list_remove x l) as [r|] eqn:E; [|discriminate].
    injection H as <-. destruct Hy as [->|Hy]; [now left | right; eauto].
Qed.

Lemma list_remove_incl x y l l' :
  list_remove x l = Some l' -> In y l' -> In y l.
Proof.
  revert l'. induction l as [|z l IH]; intros l' H Hy; simpl in *; [discriminate|].
  destruct (decide (x = z)) as [->|Hxz].
  - injection H as <-. now right.
  - destruct (list_remove x l) as [r|] eqn:E; [|discriminate].
    injection H as <-. destruct Hy as [->|Hy]; [now left | right; eauto].
Qed.

End ListRemove.

Lemma bucket_set_bucket_eq book a s l : bucket (set_bucket book a s l) a s = l.
Proof. destruct a, s; reflexivity. Qed.

Lemma bucket_set_bucket_ne book a s l a' s' :
  (a, s) <> (a', s') -> bucket (set_bucket book a s l) a' s' = bucket book a' s'.
Proof. destruct a, s, a', s'; intros H; try reflexivity; congruence. Qed.

(** ** The loops of [execute_orders] *)

Section BrokerProperties.

Variable commission : Q -> Q -> Q.
Variable data : option (gmap string Quote).
Variable current_date : date.
Variable cash : Q.

Local Abbreviation step := (execute_order commission data current_date cash).
Local Abbreviation bucket_loop := (execute_bucket commission data current_date cash).
Local Abbreviation action_loop := (execute_actions commission data current_date cash).

(** The body of the loop takes exactly one of the paths of
    [order_step]. *)
Lemma execute_order_step a order st :
  order_step commission data current_date cash a order st
    (fst (step a order st)) (snd (step a order st)).
Proof.
  unfold execute_order.
  destruct (initiated_at order >=? current_date) eqn:Hd.
  { apply step_not_yet. apply Z.geb_le in Hd. exact Hd. }
  assert (initiated_at order < current_date) as Hlt
    by (rewrite Z.geb_leb in Hd; apply Z.leb_gt in Hd; exact Hd).
  destruct (data_loc data (ticker order)) as [row|e] eqn:Hrow; cbn [fst snd].
  2: { now apply step_no_data. }
  destruct (fill_decision commission cash order row) as [price|] eqn:Hfill;
    cbn [fst snd].
  2: { now apply step_stays_open with row. }
  cbn [order_book].
  destruct (list_remove order (bucket (order_book st) a OPEN)) as [l'|] eqn:Hrm;
    cbn [fst snd].
  2: { now apply step_not_in_bucket with row price. }
  cbn [executed_orders evaluated].
  rewrite bucket_set_bucket_ne by (destruct a; discriminate).
  now apply step_fill with row.
Qed.

Lemma execute_order_inv a order st out st' :
  step a order st = (out, st') ->
  order_step commission data current_date cash a order st out st'.
Proof.
  intros H. pose proof (execute_order_step a order st) as Hs.
  rewrite H in Hs. exact Hs.
Qed.

(** A property of the state that every path through the body keeps is
    kept by the inner loop, however the loop ends. *)
Lemma execute_bucket_preserves (I : CallState -> Prop) a todo :
  (forall order st out st',
      In order todo -> I st -> step a order st = (out, st') -> I st') ->
  forall st out st', I st -> bucket_loop a todo st = (out, st') -> I st'.
Proof.
  induction todo as [|order todo IH]; intros Hstep st out st' Hst Hrun; simpl in Hrun.
  - now injection Hrun as _ <-.
  - destruct (step a order st) as [[|e] st1] eqn:Hs.
    + apply IH with st1 out; [| |exact Hrun].
      * intros o s o' s' Ho. apply Hstep. now right.
      * apply (Hstep order st Returned st1); [now left | exact Hst | exact Hs].
    + injection Hrun as _ <-.
      apply (Hstep order st (Raised e) st1); [now left | exact Hst | exact Hs].
Qed.

(** The same for the loop over the actions: the orders met are those
    of the bucket as it is when its turn comes. *)
Lemma execute_actions_preserves (I : CallState -> Prop) actions :
  (forall a order st0 st out st',
      I st0 -> In order (bucket (order_book st0) a OPEN) ->
      I st -> step a order st = (out, st') -> I st') ->
  forall st out st', I st -> action_loop actions st = (out, st') -> I st'.
Proof.
  intros Hstep.
  induction actions as [|a actions IH]; intros st out st' Hst Hrun;
    cbn [execute_actions] in Hrun.
  - now injection Hrun as _ <-.
  - destruct (bucket_loop a (bucket (order_book st) a OPEN) st) as [[|e] st1] eqn:Hb.
    + apply IH with st1 out; [|exact Hrun].
      eapply execute_bucket_preserves; [|exact Hst|exact Hb].
      intros o s o' s' Ho. now apply Hstep with st.
    + injection Hrun as _ <-.
      eapply execute_bucket_preserves; [|exact Hst|exact Hb].
      intros o s o' s' Ho. now apply Hstep with st.
Qed.

(** Every path through the body of the loop keeps the invariant of
    the call. *)
Lemma execute_order_invariant book a order st out st' :
  In order (bucket book a OPEN) ->
  call_invariant commission book data current_date cash st ->
  step a order st = (out, st') ->
  call_invariant commission book data current_date cash st'.
Proof.
  intros Hin [Ho Hx He Hk Hc] Hs.
  assert (forall a' o', In (a', o') (evaluated st ++ [(a, order)]) ->
            initiated_at order < current_date ->
            In o' (bucket book a' OPEN) /\ initiated_at o' < current_date) as Hlog.
  { intros a' o' [H| [H|[]]]%in_app_or Hd; [eauto|].
    injection H as <- <-. now split. }
  destruct (execute_order_inv _ _ _ _ _ Hs)
    as [Hd|e Hd Hrow|row Hd Hrow Hf|row price Hd Hrow Hf Hrm
        |row price still_open Hd Hrow Hf Hrm].
  - now split.
  - split; try assumption. unfold logged; cbn [evaluated]. eauto.
  - split; try assumption. unfold logged; cbn [evaluated]. eauto.
  - split; try assumption. unfold logged; cbn [evaluated]. eauto.
  - split; unfold moved; cbn [order_book executed_orders evaluated].
    + intros a' o' H.
      rewrite bucket_set_bucket_ne in H by (destruct a, a'; discriminate).
      destruct (decide (a = a')) as [<-|Hne].
      * rewrite bucket_set_bucket_eq in H.
        apply Ho. eapply list_remove_incl; eassumption.
      * rewrite bucket_set_bucket_ne in H by congruence. now apply Ho.
    + intros o' [H| [H|[]]]%in_app_or; [eauto|].
      exists a, order, price. repeat split; eauto.
    + eauto.
    + intros a' o' H. rewrite in_app_iff.
      destruct (decide (a = a')) as [<-|Hne].
      * rewrite bucket_set_bucket_eq in H.
        apply in_app_or in H as [H|H]; [|now right; right].
        destruct (Hk _ _ H); [now left | now right; left].
      * rewrite !bucket_set_bucket_ne in H by congruence.
        destruct (Hk _ _ H); [now left | now right; left].
    + intros a'.
      rewrite !bucket_set_bucket_ne by (destruct a, a'; discriminate).
      apply Hc.
Qed.

(** The state in which a call of [execute_orders] ends, returning or
    raising, satisfies the invariant of the call. *)
Lemma execute_orders_invariant book out st' :
  execute_orders commission book data current_date cash = (out, st') ->
  call_invariant commission book data current_date cash st'.
Proof.
  assert (call_invariant commission book data current_date cash
            (mkCallState book [] [])) as Hinit.
  { split; cbn; try tauto. }
  unfold execute_orders. destruct (negb (is_business_day current_date)).
  - now intros [= _ <-].
  - apply execute_actions_preserves; [|exact Hinit].
    intros a order st0 st o s' H0 Hin Hst Hs.
    eapply execute_order_invariant; [|exact Hst|exact Hs].
    now apply (inv_open _ _ _ _ _ _ H0).
Qed.

(** *** The fill rules *)

Lemma verify_funds_spec q price :
  verify_funds commission q price cash = true <->
  (inject_Z q * price + commission (inject_Z q) price <= cash)%Q.
Proof. unfold verify_funds. apply Qle_bool_iff. Qed.

(** A fill passes the funds check on the cash of the call. *)
Lemma fill_decision_funds order row price :
  fill_decision commission cash order row = Some price ->
  verify_funds commission (quantity order) price cash = true.
Proof.
  unfold fill_decision. destruct (order_class order) as [| |lp tif|sp lp tif];
    try discriminate.
  - destruct (verify_funds _ _ _ _) eqn:E; [|discriminate].
    now intros [= <-].
  - destruct (verify_funds _ _ _ _) eqn:E; [|discriminate].
    destruct (_ && _); [|discriminate]. now intros [= <-].
Qed.

(** A market order fills at the derived open price. *)
Lemma fill_decision_market order row price :
  order_class order = MarketOrder ->
  fill_decision commission cash order row = Some price ->
  price = (Price row / (1 + from_Open row))%Q.
Proof.
  unfold fill_decision. intros ->.
  destruct (verify_funds _ _ _ _); [|discriminate]. now intros [= <-].
Qed.

(** A limit order fills at its limit price, which then lies between
    the derived open price and the close. *)
Lemma fill_decision_limit order row price limit_price tif :
  order_class order = LimitOrder limit_price tif ->
  fill_decision commission cash order row = Some price ->
  price = limit_price /\
  (Price row / (1 + from_Open row) <= limit_price)%Q /\
  (limit_price <= Price row)%Q.
Proof.
  unfold fill_decision. intros ->.
  destruct (verify_funds _ _ _ _); [|discriminate]. cbn [andb].
  destruct (Qle_bool (Price row / (1 + from_Open row)) limit_price) eqn:E1;
    [|discriminate].
  destruct (Qle_bool limit_price (Price row)) eqn:E2; [|discriminate].
  intros [= <-]. apply Qle_bool_iff in E1, E2. auto.
Qed.

(** A limit order whose limit price lies outside the day's range does
    not fill. *)
Lemma fill_decision_limit_outside order row limit_price tif :
  order_class order = LimitOrder limit_price tif ->
  ~ ((Price row / (1 + from_Open row) <= limit_price)%Q /\
     (limit_price <= Price row)%Q) ->
  fill_decision commission cash order row = None.
Proof.
  intros Hc Hout.
  destruct (fill_decision commission cash order row) as [price|] eqn:E; [|reflexivity].
  destruct (fill_decision_limit _ _ _ _ _ Hc E) as (_ & H1 & H2). tauto.
Qed.

(** Orders of the other classes never fill. *)
Lemma fill_decision_class order row price :
  fill_decision commission cash order row = Some price ->
  order_class order = MarketOrder \/
  exists limit_price tif, order_class order = LimitOrder limit_price tif.
Proof.
  unfold fill_decision.
  destruct (order_class order) as [| |lp tif|sp lp tif]; try discriminate; eauto.
Qed.

(** *** Orders that stay open *)

(** An open order that does not fill is still in its bucket when the
    call ends, however it ends. *)
Lemma execute_orders_stays_open book a order out st' :
  execute_orders commission book data current_date cash = (out, st') ->
  In order (bucket book a OPEN) ->
  (forall price, ~ fills_at commission data current_date cash order price) ->
  In order (bucket (order_book st') a OPEN).
Proof.
  intros Hrun Hin Hno. revert Hrun.
  unfold execute_orders. destruct (negb (is_business_day current_date)).
  { now intros [= _ <-]. }
  apply (execute_actions_preserves
           (fun st => In order (bucket (order_book st) a OPEN))); [|exact Hin].
  intros a1 o1 _ st o s' _ _ Hst Hs.
  destruct (execute_order_inv _ _ _ _ _ Hs)
    as [Hd|e Hd Hrow|row Hd Hrow Hf|row price Hd Hrow Hf Hrm
        |row price still_open Hd Hrow Hf Hrm]; try exact Hst.
  unfold moved; cbn [order_book].
  rewrite bucket_set_bucket_ne by (destruct a1, a; discriminate).
  destruct (decide (a1 = a)) as [->|Hne].
  - rewrite bucket_set_bucket_eq.
    eapply list_remove_In_ne; [exact Hrm|exact Hst|].
    intros ->. apply (Hno price). split; eauto.
  - now rewrite bucket_set_bucket_ne by congruence.
Qed.

(** *** What a loop leaves alone, and what it gets through *)

Lemma moved_bucket_OPEN a order order' still_open st :
  bucket (order_book (moved a order order' still_open st)) a OPEN = still_open.
Proof.
  unfold moved; cbn [order_book].
  rewrite bucket_set_bucket_ne by (destruct a; discriminate).
  apply bucket_set_bucket_eq.
Qed.

Lemma moved_bucket_other a order order' still_open st a' s :
  a <> a' ->
  bucket (order_book (moved a order order' still_open st)) a' s
  = bucket (order_book st) a' s.
Proof.
  intros Hne. unfold moved; cbn [order_book].
  now rewrite !bucket_set_bucket_ne by congruence.
Qed.

(** The loop over the bucket of one action does not touch the buckets
    of the other action. *)
Lemma execute_bucket_frame a todo st out st' a' s :
  a <> a' ->
  bucket_loop a todo st = (out, st') ->
  bucket (order_book st') a' s = bucket (order_book st) a' s.
Proof.
  intros Hne.
  apply (execute_bucket_preserves
           (fun st1 => bucket (order_book st1) a' s = bucket (order_book st) a' s));
    [|reflexivity].
  intros order st1 o st2 _ Hst Hs.
  destruct (execute_order_inv _ _ _ _ _ Hs); try exact Hst.
  now rewrite moved_bucket_other.
Qed.

(** When the loop over a bucket runs to its end, every order of the
    bucket placed before [current_date] has been evaluated, and every
    order that fills when evaluated has been filled. *)
Lemma execute_bucket_returned a todo st st' :
  bucket_loop a todo st = (Returned, st') ->
  (forall order', In order' (executed_orders st) -> In order' (executed_orders st')) /\
  (forall x, In x (evaluated st) -> In x (evaluated st')) /\
  (forall order, In order todo -> initiated_at order < current_date ->
                 In (a, order) (evaluated st')) /\
  (forall order price,
      In order todo -> fills_at commission data current_date cash order price ->
      In (completed commission order current_date price) (executed_orders st')).
Proof.
  revert st. induction todo as [|o todo IH]; intros st Hrun; simpl in Hrun.
  - injection Hrun as <-. repeat split; auto; simpl; tauto.
  - destruct (step a o st) as [out st1] eqn:Hs.
    assert (out = Returned /\
            (forall order', In order' (executed_orders st) ->
                            In order' (executed_orders st1)) /\
            (forall x, In x (evaluated st) -> In x (evaluated st1)) /\
            (initiated_at o < current_date -> In (a, o) (evaluated st1)) /\
            (forall price, fills_at commission data current_date cash o price ->
               In (completed commission o current_date price)
                  (executed_orders st1))) as (-> & Hx1 & He1 & Hev1 & Hfill1).
    { revert Hrun.
      destruct (execute_order_inv _ _ _ _ _ Hs)
        as [Hd|e Hd Hrow|row Hd Hrow Hf|row price Hd Hrow Hf Hrm
            |row price still_open Hd Hrow Hf Hrm];
        try discriminate; intros _;
        unfold logged, moved; cbn [executed_orders evaluated];
        repeat split; auto; try (intros; apply in_or_app; auto; right; now left).
      - lia.
      - intros price [Hd' _]. lia.
      - intros price (_ & row' & Hrow' & Hf'). congruence.
      - intros price' (_ & row' & Hrow' & Hf').
        apply in_or_app. right. left.
        rewrite Hrow in Hrow'. injection Hrow' as <-. congruence. }
    destruct (IH _ Hrun) as (Hx & He & Hev & Hfill).
    repeat split; auto.
    + intros order [<-|Hin] Hd; auto.
    + intros order price [<-|Hin] Hf; eauto.
Qed.

(** On a business day [execute_orders] is the loop over the bucket of
    [SELL] followed, when that loop runs to its end, by the loop over
    the bucket of [BUY]. *)
Lemma execute_orders_business_day book :
  is_business_day current_date = true ->
  execute_orders commission book data current_date cash
  = match bucket_loop SELL (bucket book SELL OPEN) (mkCallState book [] []) with
    | (Returned, st1) =>
        match bucket_loop BUY (bucket (order_book st1) BUY OPEN) st1 with
        | (Returned, st2) => (Returned, st2)
        | stop => stop
        end
    | stop => stop
    end.
Proof.
  intros Hb. unfold execute_orders. rewrite Hb.
  cbn [negb Action_members execute_actions order_book].
  destruct (bucket_loop SELL _ _) as [[|e] st1]; [|reflexivity].
  now destruct (bucket_loop BUY _ _) as [[|e] st2].
Qed.

(** On a business day a call that returns has evaluated every open
    order placed before [current_date] and filled every one of them
    that fills when evaluated. *)
Lemma execute_orders_returned book st' :
  is_business_day current_date = true ->
  execute_orders commission book data current_date cash = (Returned, st') ->
  (forall a order,
      In order (bucket book a OPEN) -> initiated_at order < current_date ->
      In (a, order) (evaluated st')) /\
  (forall a order price,
      In order (bucket book a OPEN) ->
      fills_at commission data current_date cash order price ->
      In (completed commission order current_date price) (executed_orders st')).
Proof.
  intros Hb. rewrite (execute_orders_business_day _ Hb).
  destruct (bucket_loop SELL _ _) as [[|e] st1] eqn:H1; [|discriminate].
  destruct (bucket_loop BUY _ _) as [[|e] st2] eqn:H2; [|discriminate].
  intros [= <-].
  assert (SELL <> BUY) as Hne by discriminate.
  rewrite (execute_bucket_frame _ _ _ _ _ BUY OPEN Hne H1) in H2.
  cbn [order_book] in H2.
  destruct (execute_bucket_returned _ _ _ _ H1) as (_ & _ & Hev1 & Hf1).
  destruct (execute_bucket_returned _ _ _ _ H2) as (Hx2 & He2 & Hev2 & Hf2).
  split.
  - intros [|] order Hin Hd; auto.
  - intros [|] order price Hin Hf; eauto.
Qed.

(** The orders a bucket loop evaluates are orders of its bucket, logged
    in the order of the loop after those evaluated before. *)
Lemma execute_bucket_evaluated a todo st out st' :
  bucket_loop a todo st = (out, st') ->
  exists orders,
    evaluated st' = evaluated st ++ map (pair a) orders /\
    forall order, In order orders -> In order todo.
Proof.
  revert st. induction todo as [|o todo IH]; intros st Hrun; simpl in Hrun.
  - injection Hrun as _ <-. exists []. rewrite app_nil_r. split; [reflexivity|intros ? []].
  - destruct (step a o st) as [out1 st1] eqn:Hs.
    assert (evaluated st1 = evaluated st \/
            evaluated st1 = evaluated st ++ [(a, o)]) as Hev.
    { destruct (execute_order_inv _ _ _ _ _ Hs); auto. }
    assert (exists orders, evaluated st' = evaluated st1 ++ map (pair a) orders /\
              forall order, In order orders -> In order todo)
      as (orders & Heq & Hin).
    { destruct out1; [now apply IH|].
      injection Hrun as _ <-. exists []. rewrite app_nil_r. split; [reflexivity|intros ? []]. }
    destruct Hev as [Hev|Hev]; rewrite Hev in Heq.
    + exists orders. split; [exact Heq|]. intros x Hx. right. auto.
    + exists (o :: orders). split.
      * rewrite Heq, <- app_assoc. reflexivity.
      * intros x [<-|Hx]; [now left | right; auto].
Qed.

(** *** Exceptions *)

(** The only statement of the loop body that raises is the look-up of
    the market data: [list.remove] finds the order it is given, because
    the orders still to be visited are all in the bucket.  A loop that
    raises does so at the last order it evaluated, and has found the
    data of all the others. *)
Lemma execute_bucket_outcome a todo st out st' :
  todo ⊆+ bucket (order_book st) a OPEN ->
  Forall (fun x => has_data data (snd x)) (evaluated st) ->
  bucket_loop a todo st = (out, st') ->
  match out with
  | Returned => Forall (fun x => has_data data (snd x)) (evaluated st')
  | Raised e =>
      exists seen order,
        evaluated st' = seen ++ [(a, order)] /\
        Forall (fun x => has_data data (snd x)) seen /\
        data_loc data (ticker order) = Raise e
  end.
Proof.
  revert st. induction todo as [|o todo IH]; intros st Hsub Hok Hrun; simpl in Hrun.
  - now injection Hrun as <- <-.
  - apply submseteq_cons_l in Hsub as (rest & Hperm & Hsub).
    assert (In o (bucket (order_book st) a OPEN)) as Hin.
    { apply list_elem_of_In. rewrite Hperm. now left. }
    destruct (step a o st) as [out1 st1] eqn:Hs.
    destruct (execute_order_inv _ _ _ _ _ Hs)
      as [Hd|e Hd Hrow|row Hd Hrow Hf|row price Hd Hrow Hf Hrm
          |row price still_open Hd Hrow Hf Hrm].
    + apply (fun H1 => IH _ H1 Hok Hrun).
      rewrite Hperm. now apply submseteq_cons_r; left.
    + injection Hrun as <- <-. exists (evaluated st), o. auto.
    + apply (fun H1 H2 => IH _ H1 H2 Hrun).
      * unfold logged; cbn [order_book]. rewrite Hperm.
        now apply submseteq_cons_r; left.
      * unfold logged; cbn [evaluated]. apply Forall_app. split; [exact Hok|].
        constructor; [|constructor]. now exists row.
    + destruct (list_remove_is_Some _ _ Hin) as [l' Hl']. congruence.
    + apply (fun H1 H2 => IH _ H1 H2 Hrun).
      * rewrite moved_bucket_OPEN.
        apply list_remove_Permutation in Hrm. rewrite Hrm in Hperm.
        apply Permutation_cons_inv in Hperm. now rewrite Hperm.
      * unfold moved; cbn [evaluated]. apply Forall_app. split; [exact Hok|].
        constructor; [|constructor]. now exists row.
Qed.

Lemma execute_orders_outcome book out st' :
  execute_orders commission book data current_date cash = (out, st') ->
  match out with
  | Returned => Forall (fun x => has_data data (snd x)) (evaluated st')
  | Raised e =>
      exists seen a order,
        evaluated st' = seen ++ [(a, order)] /\
        Forall (fun x => has_data data (snd x)) seen /\
        data_loc data (ticker order) = Raise e
  end.
Proof.
  destruct (is_business_day current_date) eqn:Hb.
  2: { unfold execute_orders. rewrite Hb. intros [= <- <-]. constructor. }
  rewrite (execute_orders_business_day _ Hb).
  destruct (bucket_loop SELL _ _) as [out1 st1] eqn:H1.
  apply execute_bucket_outcome in H1; [|reflexivity|constructor].
  destruct out1 as [|e].
  - destruct (bucket_loop BUY _ _) as [out2 st2] eqn:H2.
    apply execute_bucket_outcome in H2; [|reflexivity|exact H1].
    destruct out2 as [|e]; intros [= <- <-]; [exact H2|].
    destruct H2 as (seen & order & H2). now exists seen, BUY, order.
  - intros [= <- <-]. destruct H1 as (seen & order & H1). now exists seen, SELL, order.
Qed.

(** [execute_orders] never raises [ValueError]: an exception that
    leaves it is the [KeyError] of a data frame without the ticker or
    the [AttributeError] of an absent data frame. *)
Lemma execute_orders_raises book e st' :
  execute_orders commission book data current_date cash = (Raised e, st') ->
  match data with
  | Some _ => e = KeyError
  | None => e = AttributeError
  end.
Proof.
  intros Hrun. apply execute_orders_outcome in Hrun
    as (seen & a & order & _ & _ & Hrow).
  unfold data_loc in Hrow. destruct data as [df|]; [|congruence].
  destruct (df !! ticker order); congruence.
Qed.

(** With a data frame that has a row for every open order placed
    before [current_date], [execute_orders] returns. *)
Lemma execute_orders_returns book :
  (forall a order, In order (bucket book a OPEN) ->
                   initiated_at order < current_date -> has_data data order) ->
  exists st', execute_orders commission book data current_date cash = (Returned, st').
Proof.
  intros Hdata.
  destruct (execute_orders commission book data current_date cash)
    as [[|e] st'] eqn:Hrun; [now exists st'|].
  pose proof (execute_orders_invariant _ _ _ Hrun) as Hinv.
  apply execute_orders_outcome in Hrun as (seen & a & order & Hev & _ & Hrow).
  destruct (inv_evaluated _ _ _ _ _ _ Hinv a order) as [Hin Hd].
  { rewrite Hev. apply in_or_app. right. now left. }
  destruct (Hdata a order Hin Hd) as [row Hrow']. congruence.
Qed.

End BrokerProperties.

Lemma data_loc_Ok data t row :
  data_loc data t = Ok row <-> exists df, data = Some df /\ df !! t = Some row.
Proof.
  unfold data_loc. split.
  - destruct data as [df|]; [|discriminate].
    destruct (df !! t) as [r|] eqn:E; [|discriminate].
    intros [= ->]. now exists df.
  - intros (df & -> & ->). reflexivity.
Qed.

(** Two orders with the same completion fill alike: the loop body reads
    only attributes that a completion keeps. *)
Lemma fills_at_completed commission data current_date cash o1 o2 p1 p2 price :
  completed commission o1 current_date p1 = completed commission o2 current_date p2 ->
  fills_at commission data current_date cash o1 price ->
  fills_at commission data current_date cash o2 price.
Proof.
  intros Heq (Hd & row & Hrow & Hf).
  injection Heq as Hi Ha Ht Hq _ _ Hc.
  split; [congruence|]. exists row. split; [congruence|].
  unfold fill_decision in *. rewrite <- Hc, <- Hq. exact Hf.
Qed.

(** ** The funds check *)

(** C2.  Every order that a call of [execute_orders] moves to a
    [COMPLETE] bucket is in the list [executed_orders] of the call, and
    every order in that list has been filled at a price for which
    quantity * price + commission(quantity, price) is at most the [cash]
    argument of the call.  The check of every order is made on that
    argument: on a business day a call that returns has filled every
    open order that, taken alone, fills with [cash], whatever was filled
    before it in the call. *)
Theorem execute_orders_funds commission book data current_date cash out st' :
  execute_orders commission book data current_date cash = (out, st') ->
  (forall a order',
      In order' (bucket (order_book st') a COMPLETE) ->
      ~ In order' (bucket book a COMPLETE) ->
      In order' (executed_orders st')) /\
  (forall order',
      In order' (executed_orders st') ->
      exists price,
        status order' = COMPLETE /\ fill_price order' = Some price /\
        (inject_Z (quantity order') * price
         + commission (inject_Z (quantity order')) price <= cash)%Q) /\
  (is_business_day current_date = true -> out = Returned ->
   forall a order price,
     In order (bucket book a OPEN) ->
     fills_at commission data current_date cash order price ->
     In (completed commission order current_date price) (executed_orders st')).
Proof.
  intros Hrun. pose proof (execute_orders_invariant _ _ _ _ _ _ _ Hrun) as Hinv.
  split; [|split].
  - intros a order' Hin Hnew.
    destruct (inv_complete _ _ _ _ _ _ Hinv a order' Hin); tauto.
  - intros order' Hin.
    destruct (inv_executed _ _ _ _ _ _ Hinv order' Hin)
      as (a & order & price & _ & (_ & row & _ & Hf) & ->).
    exists price. repeat split.
    apply verify_funds_spec. cbn [quantity completed].
    eapply fill_decision_funds. exact Hf.
  - intros Hb -> a order price.
    destruct (execute_orders_returned _ _ _ _ _ _ Hb Hrun) as [_ H]. apply H.
Qed.

(** ** Which orders are evaluated, and the price of a market fill *)

(** C3.  The orders that a call of [execute_orders] evaluates are open
    orders of the book placed strictly before the date of the call, so
    that an order placed on that date is not evaluated; and every market
    order the call fills is filled at close / (1 + from Open), computed
    from the row of its ticker in the data frame. *)
Theorem execute_orders_market_fill commission book data current_date cash out st' :
  execute_orders commission book data current_date cash = (out, st') ->
  (forall a order,
      In (a, order) (evaluated st') ->
      In order (bucket book a OPEN) /\ initiated_at order < current_date) /\
  (forall a order,
      initiated_at order = current_date -> ~ In (a, order) (evaluated st')) /\
  (forall order',
      In order' (executed_orders st') ->
      order_class order' = MarketOrder ->
      exists df row,
        data = Some df /\ df !! ticker order' = Some row /\
        fill_price order' = Some (Price row / (1 + from_Open row))%Q).
Proof.
  intros Hrun. pose proof (execute_orders_invariant _ _ _ _ _ _ _ Hrun) as Hinv.
  split; [|split].
  - apply (inv_evaluated _ _ _ _ _ _ Hinv).
  - intros a order Hd Hin.
    apply (inv_evaluated _ _ _ _ _ _ Hinv) in Hin as [_ Hlt]. lia.
  - intros order' Hin Hcls.
    destruct (inv_executed _ _ _ _ _ _ Hinv order' Hin)
      as (a & order & price & _ & (_ & row & Hrow & Hf) & ->).
    cbn [order_class completed] in Hcls.
    apply data_loc_Ok in Hrow as (df & -> & Hrow).
    exists df, row. repeat split; [exact Hrow|].
    cbn [fill_price completed]. f_equal.
    eapply fill_decision_market; eassumption.
Qed.

(** ** Limit orders *)

(** C4.  A limit order that a call of [execute_orders] fills is filled at
    its limit price, passes the funds check at that price, and its limit
    price lies between the derived open price and the close of its
    ticker.  An open limit order whose limit price lies outside that
    range is still in its [OPEN] bucket when the call ends, is not among
    the orders filled, and nothing is added to the [CANCELLED] bucket. *)
Theorem execute_orders_limit_fill commission book data current_date cash out st' :
  execute_orders commission book data current_date cash = (out, st') ->
  (forall order' limit_price tif,
      In order' (executed_orders st') ->
      order_class order' = LimitOrder limit_price tif ->
      exists df row,
        data = Some df /\ df !! ticker order' = Some row /\
        fill_price order' = Some limit_price /\
        (inject_Z (quantity order') * limit_price
         + commission (inject_Z (quantity order')) limit_price <= cash)%Q /\
        (Price row / (1 + from_Open row) <= limit_price)%Q /\
        (limit_price <= Price row)%Q) /\
  (forall a order limit_price tif df row,
      In order (bucket book a OPEN) ->
      order_class order = LimitOrder limit_price tif ->
      data = Some df -> df !! ticker order = Some row ->
      ~ ((Price row / (1 + from_Open row) <= limit_price)%Q /\
         (limit_price <= Price row)%Q) ->
      In order (bucket (order_book st') a OPEN) /\
      (forall price,
          ~ In (completed commission order current_date price) (executed_orders st')) /\
      bucket (order_book st') a CANCELLED = bucket book a CANCELLED).
Proof.
  intros Hrun. pose proof (execute_orders_invariant _ _ _ _ _ _ _ Hrun) as Hinv.
  split.
  - intros order' limit_price tif Hin Hcls.
    destruct (inv_executed _ _ _ _ _ _ Hinv order' Hin)
      as (a & order & price & _ & (_ & row & Hrow & Hf) & ->).
    cbn [order_class completed] in Hcls.
    apply data_loc_Ok in Hrow as (df & -> & Hrow).
    destruct (fill_decision_limit _ _ _ _ _ _ _ Hcls Hf) as (-> & Hlo & Hhi).
    exists df, row. cbn [ticker fill_price quantity completed].
    repeat split; try assumption.
    apply verify_funds_spec. eapply fill_decision_funds. exact Hf.
  - intros a order limit_price tif df row Hin Hcls -> Hrow Hout.
    assert (forall price, ~ fills_at commission (Some df) current_date cash order price)
      as Hno.
    { intros price (_ & row' & Hrow' & Hf).
      apply data_loc_Ok in Hrow' as (df' & [= <-] & Hrow').
      assert (row' = row) as -> by congruence.
      rewrite (fill_decision_limit_outside _ _ _ _ _ _ Hcls Hout) in Hf.
      discriminate. }
    split; [|split].
    + eapply execute_orders_stays_open; eassumption.
    + intros price Hx.
      destruct (inv_executed _ _ _ _ _ _ Hinv _ Hx)
        as (a2 & o2 & p2 & _ & Hf2 & Heq).
      apply (Hno p2). eapply fills_at_completed; [symmetry; exact Heq|exact Hf2].
    + apply (inv_cancelled _ _ _ _ _ _ Hinv).
Qed.

(** ** The order of evaluation *)

(** C6, as the code has it.  Within a call of [execute_orders] the open
    orders of the [SELL] bucket are evaluated before any open order of
    the [BUY] bucket: the evaluations of the call are those of orders of
    the [SELL] bucket followed by those of orders of the [BUY] bucket,
    and once an order of the [BUY] bucket has been evaluated every order
    of the [SELL] bucket placed before the date of the call has been. *)
Theorem execute_orders_sell_before_buy commission book data current_date cash out st' :
  execute_orders commission book data current_date cash = (out, st') ->
  exists sells buys,
    evaluated st' = map (pair SELL) sells ++ map (pair BUY) buys /\
    (forall order, In order sells -> In order (bucket book SELL OPEN)) /\
    (forall order, In order buys -> In order (bucket book BUY OPEN)) /\
    (buys <> [] ->
     forall order,
       In order (bucket book SELL OPEN) -> initiated_at order < current_date ->
       In order sells).
Proof.
  destruct (is_business_day current_date) eqn:Hb.
  2: { unfold execute_orders. rewrite Hb. intros [= _ <-].
       exists [], []. repeat split; try (intros ? []). congruence. }
  rewrite (execute_orders_business_day _ _ _ _ _ Hb).
  destruct (execute_bucket commission data current_date cash SELL _ _)
    as [out1 st1] eqn:H1.
  destruct (execute_bucket_evaluated _ _ _ _ _ _ _ _ _ H1) as (sells & Hs & Hsin).
  cbn [evaluated app] in Hs.
  destruct out1 as [|e].
  - destruct (execute_bucket commission data current_date cash BUY _ _)
      as [out2 st2] eqn:H2.
    destruct (execute_bucket_evaluated _ _ _ _ _ _ _ _ _ H2) as (buys & Hbuy & Hbin).
    assert (SELL <> BUY) as Hne by discriminate.
    rewrite (execute_bucket_frame _ _ _ _ _ _ _ _ _ BUY OPEN Hne H1) in Hbin.
    cbn [order_book] in Hbin.
    intros Heq. assert (st' = st2) as -> by (destruct out2; congruence).
    exists sells, buys. rewrite Hbuy, Hs. repeat split; auto.
    intros _ order Hin Hd.
    destruct (execute_bucket_returned _ _ _ _ _ _ _ _ H1) as (_ & _ & Hev & _).
    specialize (Hev order Hin Hd). rewrite Hs in Hev.
    apply in_map_iff in Hev as (x & [= <-] & Hx). exact Hx.
  - intros [= _ <-]. exists sells, []. rewrite Hs, app_nil_r.
    repeat split; auto; try (intros ? []). congruence.
Qed.

(** ** Placing orders *)

Lemma place_order_OPEN book order :
  bucket (place_order book order) (action order) OPEN
  = bucket book (action order) OPEN ++ [order].
Proof. unfold place_order. apply bucket_set_bucket_eq. Qed.

(** C7, as the code has it.  [place_order] validates nothing and never
    fails: it appends the order, whatever its quantity and ticker, to the
    [OPEN] bucket of its action, after the orders placed before, and
    leaves the other buckets as they are. *)
Theorem place_order_appends book order :
  bucket (place_order book order) (action order) OPEN
  = bucket book (action order) OPEN ++ [order] /\
  (forall a s,
      (a, s) <> (action order, OPEN) ->
      bucket (place_order book order) a s = bucket book a s).
Proof.
  split.
  - apply place_order_OPEN.
  - intros a s Hne. unfold place_order. apply bucket_set_bucket_ne. congruence.
Qed.

(** Orders placed one after the other are in their bucket in the order
    of submission. *)
Lemma place_order_submission_order book o1 o2 :
  action o1 = action o2 ->
  bucket (place_order (place_order book o1) o2) (action o1) OPEN
  = bucket book (action o1) OPEN ++ [o1; o2].
Proof.
  intros Ha. rewrite Ha.
  rewrite (place_order_OPEN _ o2), <- Ha.
  rewrite (place_order_OPEN _ o1), <- app_assoc. reflexivity.
Qed.

(** ** Missing market data *)

(** C8, as the code has it.  When [execute_orders] evaluates an open
    order whose ticker is absent from the day's data frame, the look-up
    raises [KeyError] and the exception leaves the call: the call does
    not return, that order is the last one evaluated, and it is still in
    its [OPEN] bucket. *)
Theorem execute_orders_missing_ticker commission book df current_date cash
    out st' a order :
  execute_orders commission book (Some df) current_date cash = (out, st') ->
  In (a, order) (evaluated st') ->
  df !! ticker order = None ->
  out = Raised KeyError /\
  (exists seen, evaluated st' = seen ++ [(a, order)] /\ ~ In (a, order) seen) /\
  In order (bucket (order_book st') a OPEN).
Proof.
  intros Hrun Hin Hnone.
  assert (~ has_data (Some df) order) as Hno.
  { intros [row Hrow]. apply data_loc_Ok in Hrow as (df' & [= <-] & Hrow). congruence. }
  pose proof (execute_orders_invariant _ _ _ _ _ _ _ Hrun) as Hinv.
  pose proof (execute_orders_outcome _ _ _ _ _ _ _ Hrun) as Hout.
  destruct out as [|e].
  { rewrite Forall_forall in Hout. destruct Hno.
    apply (Hout (a, order)). now apply list_elem_of_In. }
  destruct Hout as (seen & a' & o' & Hev & Hseen & Hrow).
  rewrite Forall_forall in Hseen.
  assert (~ In (a, order) seen) as Hnot.
  { intros H. apply Hno. apply (Hseen (a, order)). now apply list_elem_of_In. }
  rewrite Hev in Hin. apply in_app_or in Hin as [Hin|[Hin|[]]]; [tauto|].
  injection Hin as -> ->.
  split; [|split].
  - f_equal. apply (execute_orders_raises _ _ _ _ _ _ _ Hrun).
  - now exists seen.
  - eapply execute_orders_stays_open; [exact Hrun| |].
    + apply (inv_evaluated _ _ _ _ _ _ Hinv). rewrite Hev.
      apply in_or_app. right. now left.
    + intros price (_ & row & Hrow' & _). apply Hno. now exists row.
Qed.

(** ** Days without trading *)

(** C9, as the code has it.  For every call whose date falls on a
    Saturday or a Sunday [execute_orders] returns the empty list at once,
    without evaluating an order, and leaves the order book as it is,
    whatever the data frame. *)
Theorem execute_orders_weekend commission book data current_date cash :
  weekday current_date = 5 \/ weekday current_date = 6 ->
  execute_orders commission book data current_date cash
  = (Returned, mkCallState book [] []).
Proof.
  intros Hw. unfold execute_orders, is_business_day.
  destruct (weekday current_date <? 5) eqn:E; [|reflexivity].
  apply Z.ltb_lt in E. lia.
Qed.

(** C10.  [is_business_day] is true for the dates that fall on Monday to
    Friday and false exactly for those that fall on Saturday or Sunday,
    whether or not the exchange is open.  On every such weekday
    [execute_orders] goes into its loops: it evaluates an order as soon
    as the book has an open order placed before that day, and when it
    returns it has evaluated all of them. *)
Theorem is_business_day_weekday current_date :
  (is_business_day current_date = true <-> 0 <= weekday current_date <= 4) /\
  (is_business_day current_date = false <->
   weekday current_date = 5 \/ weekday current_date = 6) /\
  (is_business_day current_date = true ->
   forall commission book data cash out st',
     execute_orders commission book data current_date cash = (out, st') ->
     forall a order,
       In order (bucket book a OPEN) -> initiated_at order < current_date ->
       evaluated st' <> [] /\ (out = Returned -> In (a, order) (evaluated st'))).
Proof.
  pose proof (weekday_range current_date) as Hr.
  unfold is_business_day. split; [|split].
  - rewrite Z.ltb_lt. lia.
  - rewrite Z.ltb_ge. lia.
  - intros Hb commission book data cash out st' Hrun a order Hin Hd.
    destruct out as [|e].
    + destruct (execute_orders_returned _ _ _ _ _ _ Hb Hrun) as [Hev _].
      specialize (Hev a order Hin Hd). split; [|auto].
      intros Hnil. rewrite Hnil in Hev. destruct Hev.
    + split; [|discriminate].
      destruct (execute_orders_outcome _ _ _ _ _ _ _ Hrun) as (seen & a' & o' & Hev & _).
      rewrite Hev. intros Hnil. now apply app_eq_nil in Hnil as [_ ?].
Qed.

(** ** The ledger *)

Lemma loc_set_In label row equity_curve x :
  In x (loc_set label row equity_curve) -> In x equity_curve \/ x = (label, row).
Proof.
  unfold loc_set. destruct (existsb _ equity_curve).
  - intros (y & Hy & Hin)%in_map_iff.
    destruct (decide (fst y = label)); [right | left]; congruence.
  - intros [H|[H|[]]]%in_app_or; auto.
Qed.

(** The row written for a date is in the curve, and it is the only row
    with the label of that date. *)
Lemma loc_set_written label row equity_curve :
  In (label, row) (loc_set label row equity_curve) /\
  forall row', In (label, row') (loc_set label row equity_curve) -> row' = row.
Proof.
  unfold loc_set. destruct (existsb _ equity_curve) eqn:E.
  - split.
    + apply existsb_exists in E as (y & Hy & Hl). apply bool_decide_eq_true in Hl.
      apply in_map_iff. exists y. split; [|exact Hy].
      destruct (decide (fst y = label)); [reflexivity | contradiction].
    + intros row' (y & Hy & Hin)%in_map_iff.
      destruct (decide (fst y = label)) as [|Hne]; [congruence|].
      destruct Hne. now rewrite Hy.
  - split.
    + apply in_or_app. right. now left.
    + intros row' [H|[H|[]]]%in_app_or; [|congruence].
      assert (existsb (fun r => bool_decide (fst r = label)) equity_curve = true)
        as E'; [|congruence].
      apply existsb_exists. exists (label, row'). split; [exact H|].
      now apply bool_decide_eq_true.
Qed.

Lemma ledger_state_nonempty start_date cash equity_curve :
  ledger_state start_date cash equity_curve -> equity_curve <> [].
Proof.
  induction 1 as [|curve d order curve' _ IH Hup]; [discriminate|].
  unfold update_on_order in Hup.
  destruct (iloc_last curve) as [prev|]; [|discriminate].
  destruct (fill_price order) as [price|]; [|discriminate].
  destruct (action order); injection Hup as <-; intros Hnil;
    match type of Hnil with
    | loc_set ?l ?r ?c = _ => pose proof (proj1 (loc_set_written l r c)) as Hin
    end;
    rewrite Hnil in Hin; destruct Hin.
Qed.

(** Applying a filled order to a ledger never fails. *)
Lemma update_on_order_returns start_date cash equity_curve current_date order :
  ledger_state start_date cash equity_curve ->
  is_Some (fill_price order) ->
  exists equity_curve', update_on_order equity_curve current_date order = Ok equity_curve'.
Proof.
  intros Hst [price Hp]. apply ledger_state_nonempty in Hst.
  unfold update_on_order, iloc_last. rewrite Hp.
  destruct (last equity_curve) as [[l prev]|] eqn:E.
  - destruct (action order); eauto.
  - apply last_None in E. contradiction.
Qed.

(** C1.  In every equity curve of a ledger, the one seeded by the
    constructor and those left by applying fills, every row has a total
    value equal to its cash plus its equity. *)
Theorem ledger_total_value start_date cash equity_curve :
  ledger_state start_date cash equity_curve ->
  forall label row,
    In (label, row) equity_curve ->
    (Total_Value row == Cash row + Equity row)%Q.
Proof.
  induction 1 as [|curve d order curve' _ IH Hup]; intros label row Hin.
  - destruct Hin as [[= _ <-]|[]]. cbn. ring.
  - unfold update_on_order in Hup.
    destruct (iloc_last curve) as [prev|]; [|discriminate].
    destruct (fill_price order) as [price|]; [|discriminate].
    destruct (action order); injection Hup as Hup; rewrite <- Hup in Hin;
      apply loc_set_In in Hin as [Hin|[= _ ->]]; eauto; cbn; reflexivity.
Qed.

Import Scenario.

(** The ledger of the scenario is reached by applying one fill. *)
Lemma curve_after_buy_state : ledger_state sunday 100000 curve_after_buy.
Proof.
  apply (ledger_update _ _ (StatsHandler sunday 100000) tuesday filled_buy).
  - constructor.
  - reflexivity.
Defined.

Lemma ledger_total_value_witness :
  ledger_state sunday 100000 curve_after_buy /\
  In (LabelOf tuesday, row_after_buy) curve_after_buy /\
  (Total_Value row_after_buy == Cash row_after_buy + Equity row_after_buy)%Q.
Proof.
  assert (In (LabelOf tuesday, row_after_buy) curve_after_buy) as Hin
    by (right; left; reflexivity).
  split; [exact curve_after_buy_state|]. split; [exact Hin|].
  exact (ledger_total_value _ _ _ curve_after_buy_state _ _ Hin).
Defined.

(** A second fill on the same date updates the row of that date, which
    stays the only one for it. *)
Example same_date_accumulates :
  update_on_order curve_after_buy tuesday filled_sell
  = Ok (StatsHandler sunday 100000
        ++ [(LabelOf tuesday,
             {| Date := tuesday; Cash := 95498; Equity := 4500;
                Total_Value := 99998; Commission_Paid := 2 |})]).
Proof. reflexivity. Qed.

(** ** The scenarios replayed *)

(** Scenario A of the specification: a market order placed on Monday
    fills on Tuesday at the derived open price, here 50; the sell order
    fills first. *)
Example call_both_result :
  call_both
  = (Returned,
     {| order_book :=
          {| book_BUY := mkBuckets [] [filled_buy] [];
             book_SELL := mkBuckets [] [filled_sell] [] |};
        executed_orders := [filled_sell; filled_buy];
        evaluated := [(SELL, sell_acme); (BUY, buy_acme)] |}).
Proof. reflexivity. Qed.

(** Scenario B of the specification: with an open of 44 and a close of
    46 the limit order at 45 fills at 45 and the one at 40 stays open. *)
Example call_limits_result :
  call_limits
  = (Returned,
     {| order_book :=
          {| book_BUY := mkBuckets [limit_40] [filled_limit] [];
             book_SELL := mkBuckets [] [] [] |};
        executed_orders := [filled_limit];
        evaluated := [(BUY, limit_45); (BUY, limit_40)] |}).
Proof. reflexivity. Qed.

(** Scenario C of the specification: two purchases of 5000 each (and a
    commission of 1) both fill with 6000 of cash, since each is checked
    against the cash of the call. *)
Example over_commitment :
  executed_orders
    (snd (execute_orders flat_fee
            (place_order (place_order empty_book buy_acme) buy_acme)
            (Some quotes) tuesday 6000))
  = [filled_buy; filled_buy].
Proof. reflexivity. Qed.

Lemma execute_orders_funds_witness :
  call_both = (Returned, snd call_both) /\
  In filled_buy (executed_orders (snd call_both)) /\
  exists price,
    status filled_buy = COMPLETE /\ fill_price filled_buy = Some price /\
    (inject_Z (quantity filled_buy) * price
     + flat_fee (inject_Z (quantity filled_buy)) price <= 100000)%Q.
Proof.
  assert (execute_orders flat_fee book_both (Some quotes) tuesday 100000
          = (Returned, snd call_both)) as Hrun by reflexivity.
  assert (In filled_buy (executed_orders (snd call_both))) as Hin
    by (right; left; reflexivity).
  split; [exact Hrun|]. split; [exact Hin|].
  exact (proj1 (proj2 (execute_orders_funds _ _ _ _ _ _ _ Hrun)) filled_buy Hin).
Defined.

Lemma execute_orders_market_fill_witness :
  call_both = (Returned, snd call_both) /\
  In filled_buy (executed_orders (snd call_both)) /\
  exists df row,
    Some quotes = Some df /\ df !! ticker filled_buy = Some row /\
    fill_price filled_buy = Some (Price row / (1 + from_Open row))%Q.
Proof.
  assert (execute_orders flat_fee book_both (Some quotes) tuesday 100000
          = (Returned, snd call_both)) as Hrun by reflexivity.
  assert (In filled_buy (executed_orders (snd call_both))) as Hin
    by (right; left; reflexivity).
  split; [exact Hrun|]. split; [exact Hin|].
  exact (proj2 (proj2 (execute_orders_market_fill _ _ _ _ _ _ _ Hrun))
           filled_buy Hin eq_refl).
Defined.

Lemma execute_orders_limit_fill_witness :
  call_limits = (Returned, snd call_limits) /\
  In filled_limit (executed_orders (snd call_limits)) /\
  exists df row,
    Some quotes_44_46 = Some df /\ df !! ticker filled_limit = Some row /\
    fill_price filled_limit = Some 45%Q /\
    (inject_Z (quantity filled_limit) * 45
     + flat_fee (inject_Z (quantity filled_limit)) 45 <= 100000)%Q /\
    (Price row / (1 + from_Open row) <= 45)%Q /\
    (45 <= Price row)%Q.
Proof.
  assert (execute_orders flat_fee book_limits (Some quotes_44_46) tuesday 100000
          = (Returned, snd call_limits)) as Hrun by reflexivity.
  assert (In filled_limit (executed_orders (snd call_limits))) as Hin
    by (left; reflexivity).
  split; [exact Hrun|]. split; [exact Hin|].
  exact (proj1 (execute_orders_limit_fill _ _ _ _ _ _ _ Hrun)
           filled_limit 45%Q GTC Hin eq_refl).
Defined.

Lemma execute_orders_sell_before_buy_witness :
  call_both = (Returned, snd call_both) /\
  exists sells buys,
    evaluated (snd call_both) = map (pair SELL) sells ++ map (pair BUY) buys /\
    (forall order, In order sells -> In order (bucket book_both SELL OPEN)) /\
    (forall order, In order buys -> In order (bucket book_both BUY OPEN)) /\
    (buys <> [] ->
     forall order,
       In order (bucket book_both SELL OPEN) -> initiated_at order < tuesday ->
       In order sells).
Proof.
  assert (execute_orders flat_fee book_both (Some quotes) tuesday 100000
          = (Returned, snd call_both)) as Hrun by reflexivity.
  split; [exact Hrun|].
  exact (execute_orders_sell_before_buy _ _ _ _ _ _ _ Hrun).
Defined.

(** The claim C6 fails on the book with one market order on each side:
    the order of the [SELL] bucket is evaluated, and filled, before the
    order of the [BUY] bucket. *)
Lemma execute_orders_buy_not_first :
  evaluated (snd call_both) = [(SELL, sell_acme); (BUY, buy_acme)] /\
  executed_orders (snd call_both) = [filled_sell; filled_buy].
Proof. split; reflexivity. Qed.

(** The claim C7 fails on an order for no shares of no ticker:
    [place_order] puts it in the book. *)
Lemma place_order_no_validation :
  quantity empty_order <= 0 /\ ticker empty_order = ""%string /\
  bucket (place_order empty_book empty_order) BUY OPEN = [empty_order].
Proof. repeat split. discriminate. Qed.

Lemma execute_orders_missing_ticker_witness :
  call_nope = (fst call_nope, snd call_nope) /\
  In (SELL, sell_nope) (evaluated (snd call_nope)) /\
  quotes !! ticker sell_nope = None /\
  fst call_nope = Raised KeyError /\
  (exists seen, evaluated (snd call_nope) = seen ++ [(SELL, sell_nope)]
                /\ ~ In (SELL, sell_nope) seen) /\
  In sell_nope (bucket (order_book (snd call_nope)) SELL OPEN).
Proof.
  assert (execute_orders flat_fee book_nope (Some quotes) tuesday 100000
          = (fst call_nope, snd call_nope)) as Hrun by reflexivity.
  assert (In (SELL, sell_nope) (evaluated (snd call_nope))) as Hin
    by (left; reflexivity).
  assert (quotes !! ticker sell_nope = None) as Hnone by reflexivity.
  split; [exact Hrun|]. split; [exact Hin|]. split; [exact Hnone|].
  exact (execute_orders_missing_ticker _ _ _ _ _ _ _ _ _ Hrun Hin Hnone).
Defined.

(** The claim C8 fails on a book whose first sell order is for a ticker
    that the data frame lacks: the call raises [KeyError] instead of
    returning, and the orders after that one, which would fill, are not
    evaluated. *)
Lemma execute_orders_missing_ticker_aborts :
  call_nope = (Raised KeyError, mkCallState book_nope [] [(SELL, sell_nope)]) /\
  fills_at flat_fee (Some quotes) tuesday 100000 sell_acme 50 /\
  fills_at flat_fee (Some quotes) tuesday 100000 buy_acme 50.
Proof.
  split; [reflexivity|].
  split; (split; [reflexivity|]); exists (mkQuote 50 0); split; reflexivity.
Qed.

Lemma execute_orders_weekend_witness :
  (weekday sunday = 5 \/ weekday sunday = 6) /\
  execute_orders flat_fee book_both (Some quotes) sunday 100000
  = (Returned, mkCallState book_both [] []).
Proof.
  assert (weekday sunday = 5 \/ weekday sunday = 6) as Hw by (right; reflexivity).
  split; [exact Hw|].
  exact (execute_orders_weekend flat_fee book_both (Some quotes) sunday 100000 Hw).
Defined.

(** The claim C9 fails on a weekday for which there is no snapshot, such
    as a holiday of the exchange: the call does not return the empty
    list but evaluates the first open order and raises. *)
Lemma execute_orders_without_snapshot :
  is_business_day labor_day = true /\
  execute_orders flat_fee book_both None labor_day 100000
  = (Raised AttributeError, mkCallState book_both [] [(SELL, sell_acme)]).
Proof. split; reflexivity. Qed.

(** On a holiday of the exchange for which the data frame has the
    quotes, orders are filled. *)
Example execute_orders_on_holiday :
  execute_orders flat_fee book_both (Some quotes) labor_day 100000
  = (Returned,
     {| order_book :=
          {| book_BUY :=
               mkBuckets [] [completed flat_fee buy_acme labor_day 50] [];
             book_SELL :=
               mkBuckets [] [completed flat_fee sell_acme labor_day 50] [] |};
        executed_orders :=
          [completed flat_fee sell_acme labor_day 50;
           completed flat_fee buy_acme labor_day 50];
        evaluated := [(SELL, sell_acme); (BUY, buy_acme)] |}).
Proof. reflexivity. Qed.

(** ** The cost basis *)

(** What [process_orders] writes on a purchase of a ticker that is
    already held: the new cost is the sum of the ratios price / quantity
    of the holding and of the fill. *)
Lemma update_holdings_buy portfolio order price h :
  portfolio !! ticker order = Some h ->
  action order = BUY ->
  Reversal.update_holdings portfolio order price !! ticker order
  = Some (Reversal.mkHolding price
            (Reversal.Quantity h + inject_Z (quantity order))%Q
            (Reversal.Price h / Reversal.Quantity h
             + price / inject_Z (quantity order))%Q
            (Reversal.Market_Value h)).
Proof.
  intros Hh Ha. unfold Reversal.update_holdings. rewrite Hh, Ha.
  apply lookup_insert_eq.
Qed.

(** C5 does not hold of the code.  With 100 shares of ACME held at a
    cost of 10 and last priced at 10, a purchase of 100 more shares
    filled at 20 leaves a cost of 10/100 + 20/100 = 3/10, where the
    quantity-weighted average is (10 * 100 + 20 * 100) / 200 = 15. *)
Theorem buy_cost_basis_not_weighted_average :
  exists st' h',
    Reversal.process_order tuesday
      (Reversal.mkState holdings (StatsHandler sunday 100000)) bought_at_20
    = Ok st' /\
    Reversal.portfolio st' !! "ACME"%string = Some h' /\
    (Reversal.Cost h' == 3 # 10)%Q /\
    (Reversal.weighted_average_cost 10 100 20 100 == 15)%Q /\
    ~ (Reversal.Cost h' == Reversal.weighted_average_cost 10 100 20 100)%Q.
Proof.
  eexists. eexists. split; [reflexivity|].
  split; [apply update_holdings_buy; reflexivity|].
  cbn [Reversal.Cost]. repeat split; try reflexivity.
  intros H. discriminate H.
Qed.

(** * Further properties of the code *)

(** ** The effect of [execute_orders] on the book *)

Lemma list_remove_middle `{EqDecision A} (x : A) (l1 l2 : list A) :
  ~ In x l1 -> list_remove x (l1 ++ x :: l2) = Some (l1 ++ l2).
Proof.
  induction l1 as [|y l1 IH]; intros Hnot; simpl.
  - destruct (decide (x = x)); [reflexivity | contradiction].
  - destruct (decide (x = y)) as [->|Hne]; [destruct Hnot; now left|].
    rewrite IH; [reflexivity|]. intros H. apply Hnot. now right.
Qed.

(** Two books with the same buckets are the same book. *)
Lemma book_eq book1 book2 :
  (forall a s, bucket book1 a s = bucket book2 a s) -> book1 = book2.
Proof.
  intros H. destruct book1 as [[bo bc bx] [so sc sx]], book2 as [[bo' bc' bx'] [so' sc' sx']].
  pose proof (H BUY OPEN). pose proof (H BUY COMPLETE). pose proof (H BUY CANCELLED).
  pose proof (H SELL OPEN). pose proof (H SELL COMPLETE). pose proof (H SELL CANCELLED).
  cbn in *. congruence.
Qed.

Section CallEffects.

Variable commission : Q -> Q -> Q.
Variable data : option (gmap string Quote).
Variable current_date : date.
Variable cash : Q.

Local Abbreviation price_of := (fill_price_of commission data current_date cash).
Local Abbreviation fills := (fills_of commission data current_date cash).
Local Abbreviation stays := (stays_of commission data current_date cash).
Local Abbreviation loop := (execute_bucket commission data current_date cash).


Lemma fill_price_of_not_yet order :
  current_date <= initiated_at order -> price_of order = None.
Proof.
  intros Hd. unfold fill_price_of.
  destruct (initiated_at order >=? current_date) eqn:E; [reflexivity|].
  rewrite Z.geb_leb in E. apply Z.leb_gt in E. lia.
Qed.

Lemma fill_price_of_row order row :
  initiated_at order < current_date ->
  data_loc data (ticker order) = Ok row ->
  price_of order = fill_decision commission cash order row.
Proof.
  intros Hd Hrow. unfold fill_price_of. rewrite Hrow.
  destruct (initiated_at order >=? current_date) eqn:E; [|reflexivity].
  apply Z.geb_le in E. lia.
Qed.

Lemma fills_of_cons_None order orders :
  price_of order = None -> fills (order :: orders) = fills orders.
Proof. intros H. unfold fills_of. cbn. now rewrite H. Qed.

Lemma fills_of_cons_Some order orders price :
  price_of order = Some price ->
  fills (order :: orders)
  = completed commission order current_date price :: fills orders.
Proof. intros H. unfold fills_of. cbn. now rewrite H. Qed.

Lemma stays_of_cons_None order orders :
  price_of order = None -> stays (order :: orders) = order :: stays orders.
Proof. intros H. unfold stays_of. now rewrite filter_cons_True. Qed.

Lemma stays_of_cons_Some order orders price :
  price_of order = Some price -> stays (order :: orders) = stays orders.
Proof. intros H. unfold stays_of. rewrite filter_cons_False; [reflexivity|congruence]. Qed.

(** How far a loop over a bucket gets.  The orders [kept] at the front of
    the bucket have been visited and do not fill; the loop visits [done]
    and, when it raises, stops at the first order of [rest], whose market
    data is missing.  The orders of [done] that fill have moved, in
    order, to the end of the [COMPLETE] bucket and of [executed_orders];
    the others are where they were. *)
Lemma execute_bucket_progress a todo st out st' kept :
  bucket (order_book st) a OPEN = kept ++ todo ->
  Forall (fun order => price_of order = None) kept ->
  loop a todo st = (out, st') ->
  exists done rest,
    todo = done ++ rest /\
    bucket (order_book st') a OPEN = kept ++ stays done ++ rest /\
    bucket (order_book st') a COMPLETE
    = bucket (order_book st) a COMPLETE ++ fills done /\
    executed_orders st' = executed_orders st ++ fills done /\
    match out with
    | Returned => rest = []
    | Raised e =>
        exists order rest',
          rest = order :: rest' /\ initiated_at order < current_date /\
          data_loc data (ticker order) = Raise e
    end.
Proof.
  revert st kept. induction todo as [|o todo IH]; intros st kept Hopen Hkept Hrun;
    simpl in Hrun.
  - injection Hrun as <- <-. exists [], []. rewrite !app_nil_r.
    repeat split; auto. now rewrite app_nil_r in Hopen.
  - destruct (execute_order commission data current_date cash a o st)
      as [out1 st1] eqn:Hs.
    destruct (execute_order_inv _ _ _ _ _ _ _ _ _ Hs)
      as [Hd|e Hd Hrow|row Hd Hrow Hf|row price Hd Hrow Hf Hrm
          |row price still_open Hd Hrow Hf Hrm].
    + pose proof (fill_price_of_not_yet _ Hd) as Hp.
      destruct (IH st (kept ++ [o])) as (done & rest & -> & Ho & Hc & He & Hout);
        [now rewrite <- app_assoc | apply Forall_app; split; auto | exact Hrun |].
      exists (o :: done), rest.
      rewrite (stays_of_cons_None _ _ Hp), (fills_of_cons_None _ _ Hp).
      rewrite <- app_assoc in Ho. repeat split; auto.
    + injection Hrun as <- <-. exists [], (o :: todo).
      unfold logged; cbn [order_book executed_orders]. rewrite !app_nil_r.
      repeat split; auto. exists o, todo. auto.
    + assert (price_of o = None) as Hp by (now rewrite (fill_price_of_row _ _ Hd Hrow)).
      destruct (IH (logged a o st) (kept ++ [o]))
        as (done & rest & -> & Ho & Hc & He & Hout);
        [unfold logged; cbn [order_book]; now rewrite <- app_assoc
        | apply Forall_app; split; auto | exact Hrun |].
      exists (o :: done), rest.
      rewrite (stays_of_cons_None _ _ Hp), (fills_of_cons_None _ _ Hp).
      rewrite <- app_assoc in Ho. repeat split; auto.
    + assert (In o (bucket (order_book st) a OPEN)) as Hin
        by (rewrite Hopen; apply in_or_app; right; now left).
      destruct (list_remove_is_Some _ _ Hin) as [l' Hl']. congruence.
    + assert (price_of o = Some price) as Hp
        by (now rewrite (fill_price_of_row _ _ Hd Hrow)).
      assert (still_open = kept ++ todo) as ->.
      { rewrite Hopen, list_remove_middle in Hrm; [congruence|].
        intros Hin. rewrite Forall_forall in Hkept.
        apply list_elem_of_In, Hkept in Hin. congruence. }
      destruct (IH (moved a o (completed commission o current_date price)
                      (kept ++ todo) st) kept)
        as (done & rest & -> & Ho & Hc & He & Hout);
        [apply moved_bucket_OPEN | exact Hkept | exact Hrun |].
      exists (o :: done), rest.
      rewrite (stays_of_cons_Some _ _ _ Hp), (fills_of_cons_Some _ _ _ Hp).
      unfold moved in Hc, He; cbn [order_book executed_orders] in Hc, He.
      rewrite bucket_set_bucket_eq in Hc.
      rewrite <- app_assoc in Hc, He. repeat split; auto.
Qed.

End CallEffects.

Section CallResults.

Variable commission : Q -> Q -> Q.
Variable data : option (gmap string Quote).
Variable current_date : date.
Variable cash : Q.

Local Abbreviation fills := (fills_of commission data current_date cash).
Local Abbreviation stays := (stays_of commission data current_date cash).
Local Abbreviation run := (fun book => execute_orders commission book data current_date cash).

Lemma fills_stays_length orders :
  (length (stays orders) + length (fills orders) = length orders)%nat.
Proof.
  unfold stays_of, fills_of. induction orders as [|o orders IH]; [reflexivity|].
  cbn [omap list_omap].
  destruct (fill_price_of commission data current_date cash o) as [p|] eqn:E.
  - rewrite filter_cons_False by congruence. cbn. lia.
  - rewrite filter_cons_True by assumption. cbn. lia.
Qed.

Lemma fills_of_stays orders : fills (stays orders) = [].
Proof.
  unfold stays_of, fills_of. induction orders as [|o orders IH]; [reflexivity|].
  destruct (fill_price_of commission data current_date cash o) as [p|] eqn:E.
  - now rewrite filter_cons_False by congruence.
  - rewrite filter_cons_True by assumption. cbn. now rewrite E.
Qed.

Lemma stays_of_stays orders : stays (stays orders) = stays orders.
Proof.
  unfold stays_of. induction orders as [|o orders IH]; [reflexivity|].
  destruct (fill_price_of commission data current_date cash o) as [p|] eqn:E.
  - now rewrite filter_cons_False by congruence.
  - rewrite !filter_cons_True by assumption. now rewrite IH.
Qed.

(** How far a call on a business day gets: the loop over the [SELL]
    bucket visits [done_s] and leaves [rest_s] unvisited, and the loop
    over the [BUY] bucket, which runs only when the first one ended,
    visits [done_b] and leaves [rest_b]. *)
Lemma execute_orders_progress book out st' :
  is_business_day current_date = true ->
  run book = (out, st') ->
  exists done_s rest_s done_b rest_b,
    bucket book SELL OPEN = done_s ++ rest_s /\
    bucket book BUY OPEN = done_b ++ rest_b /\
    bucket (order_book st') SELL OPEN = stays done_s ++ rest_s /\
    bucket (order_book st') BUY OPEN = stays done_b ++ rest_b /\
    bucket (order_book st') SELL COMPLETE = bucket book SELL COMPLETE ++ fills done_s /\
    bucket (order_book st') BUY COMPLETE = bucket book BUY COMPLETE ++ fills done_b /\
    executed_orders st' = fills done_s ++ fills done_b /\
    match out with
    | Returned => rest_s = [] /\ rest_b = []
    | Raised e =>
        exists order rest',
          (rest_s = order :: rest' /\ done_b = [] \/
           rest_s = [] /\ rest_b = order :: rest') /\
          initiated_at order < current_date /\
          data_loc data (ticker order) = Raise e
    end.
Proof.
  intros Hb. cbv beta. rewrite (execute_orders_business_day _ _ _ _ _ Hb).
  destruct (execute_bucket commission data current_date cash SELL _ _)
    as [out1 st1] eqn:H1.
  assert (SELL <> BUY) as Hsb by discriminate.
  assert (BUY <> SELL) as Hbs by discriminate.
  pose proof (execute_bucket_frame _ _ _ _ _ _ _ _ _ BUY OPEN Hsb H1) as Hf1o.
  pose proof (execute_bucket_frame _ _ _ _ _ _ _ _ _ BUY COMPLETE Hsb H1) as Hf1c.
  cbn [order_book] in Hf1o, Hf1c.
  destruct (execute_bucket_progress _ _ _ _ _ _ _ _ _ [] eq_refl (Forall_nil_2 _) H1)
    as (done_s & rest_s & Hs & Hso & Hsc & Hse & Hsout).
  cbn [order_book executed_orders app] in Hs, Hso, Hsc, Hse.
  destruct out1 as [|e].
  - subst rest_s. rewrite app_nil_r in Hs, Hso.
    destruct (execute_bucket commission data current_date cash BUY _ _)
      as [out2 st2] eqn:H2.
    pose proof (execute_bucket_frame _ _ _ _ _ _ _ _ _ SELL OPEN Hbs H2) as Hf2o.
    pose proof (execute_bucket_frame _ _ _ _ _ _ _ _ _ SELL COMPLETE Hbs H2) as Hf2c.
    destruct (execute_bucket_progress _ _ _ _ _ _ _ _ _ [] eq_refl (Forall_nil_2 _) H2)
      as (done_b & rest_b & Hbd & Hbo & Hbc & Hbe & Hbout).
    cbn [app] in Hbo. rewrite Hf1o in Hbd. rewrite Hf1c in Hbc.
    intros Heq. assert (out = out2 /\ st' = st2) as [-> ->]
      by (destruct out2; injection Heq as <- <-; auto).
    exists done_s, [], done_b, rest_b. rewrite !app_nil_r.
    rewrite Hf2o, Hf2c, Hso, Hsc, Hbe, Hse. repeat split; auto.
    destruct out2 as [|e]; [auto|].
    destruct Hbout as (order & rest' & -> & Hd & Hrow).
    exists order, rest'. auto.
  - intros [= <- <-]. exists done_s, rest_s, [], (bucket book BUY OPEN).
    rewrite Hf1o, Hf1c, Hse. cbn. rewrite !app_nil_r. repeat split; auto.
    destruct Hsout as (order & rest' & -> & Hd & Hrow).
    exists order, rest'. auto.
Qed.

End CallResults.

(** X1.  When a call of [execute_orders] on a business day returns, each
    [OPEN] bucket holds the orders it held that do not fill, in their
    order; each [COMPLETE] bucket holds what it held followed by the
    completions of the orders of the [OPEN] bucket that fill, in their
    order; the [CANCELLED] buckets are as they were. *)
Theorem execute_orders_returned_book commission book data current_date cash st' :
  is_business_day current_date = true ->
  execute_orders commission book data current_date cash = (Returned, st') ->
  forall a,
    bucket (order_book st') a OPEN
    = stays_of commission data current_date cash (bucket book a OPEN) /\
    bucket (order_book st') a COMPLETE
    = bucket book a COMPLETE
      ++ fills_of commission data current_date cash (bucket book a OPEN) /\
    bucket (order_book st') a CANCELLED = bucket book a CANCELLED.
Proof.
  intros Hb Hrun.
  pose proof (execute_orders_invariant _ _ _ _ _ _ _ Hrun) as Hinv.
  destruct (execute_orders_progress _ _ _ _ _ _ _ Hb Hrun)
    as (ds & rs & db & rb & Hs & Hbu & Hso & Hbo & Hsc & Hbc & _ & -> & ->).
  rewrite app_nil_r in *. subst ds db.
  intros [|]; repeat split; auto; apply (inv_cancelled _ _ _ _ _ _ Hinv).
Qed.

(** X2.  The list that a call on a business day returns is made of the
    completions of the orders of the [SELL] bucket that fill, in the
    order of the bucket, followed by those of the [BUY] bucket. *)
Theorem execute_orders_returned_list commission book data current_date cash st' :
  is_business_day current_date = true ->
  execute_orders commission book data current_date cash = (Returned, st') ->
  executed_orders st'
  = fills_of commission data current_date cash (bucket book SELL OPEN)
    ++ fills_of commission data current_date cash (bucket book BUY OPEN).
Proof.
  intros Hb Hrun.
  destruct (execute_orders_progress _ _ _ _ _ _ _ Hb Hrun)
    as (ds & rs & db & rb & Hs & Hbu & _ & _ & _ & _ & He & -> & ->).
  rewrite app_nil_r in *. now subst ds db.
Qed.

(** X3.  However a call of [execute_orders] ends, the orders of its list
    [executed_orders] are the orders it has appended to the [COMPLETE]
    buckets: those appended to the bucket of [SELL] followed by those
    appended to the bucket of [BUY].  A call that raises has thus kept in
    the book the fills made before the exception. *)
Theorem execute_orders_commits commission book data current_date cash out st' :
  execute_orders commission book data current_date cash = (out, st') ->
  exists sold bought,
    executed_orders st' = sold ++ bought /\
    bucket (order_book st') SELL COMPLETE = bucket book SELL COMPLETE ++ sold /\
    bucket (order_book st') BUY COMPLETE = bucket book BUY COMPLETE ++ bought.
Proof.
  intros Hrun. destruct (is_business_day current_date) eqn:Hb.
  - destruct (execute_orders_progress _ _ _ _ _ _ _ Hb Hrun)
      as (ds & rs & db & rb & _ & _ & _ & _ & Hsc & Hbc & He & _).
    eauto.
  - unfold execute_orders in Hrun. rewrite Hb in Hrun. injection Hrun as _ <-.
    exists [], []. cbn [order_book executed_orders]. now rewrite !app_nil_r.
Qed.

(** X4.  However a call of [execute_orders] ends, no order is lost or
    duplicated: for each action the [OPEN] and [COMPLETE] buckets hold
    together as many orders as before, and the orders left in the [OPEN]
    bucket are orders it held, in the order they had. *)
Theorem execute_orders_conserves commission book data current_date cash out st' :
  execute_orders commission book data current_date cash = (out, st') ->
  forall a,
    (length (bucket (order_book st') a OPEN)
     + length (bucket (order_book st') a COMPLETE)
     = length (bucket book a OPEN) + length (bucket book a COMPLETE))%nat /\
    bucket (order_book st') a OPEN `sublist_of` bucket book a OPEN.
Proof.
  intros Hrun. destruct (is_business_day current_date) eqn:Hb.
  - destruct (execute_orders_progress _ _ _ _ _ _ _ Hb Hrun)
      as (ds & rs & db & rb & Hs & Hbu & Hso & Hbo & Hsc & Hbc & _ & _).
    pose proof (fills_stays_length commission data current_date cash ds) as Hls.
    pose proof (fills_stays_length commission data current_date cash db) as Hlb.
    assert (forall l r, stays_of commission data current_date cash l ++ r
                        `sublist_of` l ++ r) as Hsub.
    { intros l r. apply sublist_app; [|reflexivity]. apply sublist_filter. }
    intros [|].
    + rewrite Hso, Hsc, Hs, !length_app. split; [lia | apply Hsub].
    + rewrite Hbo, Hbc, Hbu, !length_app. split; [lia | apply Hsub].
  - unfold execute_orders in Hrun. rewrite Hb in Hrun. injection Hrun as _ <-.
    intros a. split; reflexivity.
Qed.

(** A call that returns on a business day has found the market data of
    every open order placed before that day. *)
Lemma execute_orders_returned_data commission book data current_date cash st' :
  is_business_day current_date = true ->
  execute_orders commission book data current_date cash = (Returned, st') ->
  forall a order,
    In order (bucket book a OPEN) -> initiated_at order < current_date ->
    has_data data order.
Proof.
  intros Hb Hrun a order Hin Hd.
  destruct (execute_orders_returned _ _ _ _ _ _ Hb Hrun) as [Hev _].
  pose proof (execute_orders_outcome _ _ _ _ _ _ _ Hrun) as Hok. cbn in Hok.
  rewrite Forall_forall in Hok.
  apply (Hok (a, order)). apply list_elem_of_In. now apply Hev.
Qed.

(** X5.  A second call of [execute_orders] for the same day, data and
    cash, after a call that returned, returns the empty list and leaves
    the order book as the first call left it. *)
Theorem execute_orders_twice commission book data current_date cash st1 :
  is_business_day current_date = true ->
  execute_orders commission book data current_date cash = (Returned, st1) ->
  exists st2,
    execute_orders commission (order_book st1) data current_date cash
    = (Returned, st2) /\
    order_book st2 = order_book st1 /\
    executed_orders st2 = [].
Proof.
  intros Hb Hrun.
  pose proof (execute_orders_invariant _ _ _ _ _ _ _ Hrun) as Hinv1.
  destruct (execute_orders_returns commission data current_date cash (order_book st1))
    as [st2 Hrun2].
  { intros a order Hin Hd.
    apply (execute_orders_returned_data _ _ _ _ _ _ Hb Hrun a); [|exact Hd].
    now apply (inv_open _ _ _ _ _ _ Hinv1). }
  exists st2. split; [exact Hrun2|].
  pose proof (execute_orders_invariant _ _ _ _ _ _ _ Hrun2) as Hinv2.
  destruct (execute_orders_progress _ _ _ _ _ _ _ Hb Hrun)
    as (ds & rs & db & rb & Hs & Hbu & Hso & Hbo & _ & _ & _ & -> & ->).
  destruct (execute_orders_progress _ _ _ _ _ _ _ Hb Hrun2)
    as (ds2 & rs2 & db2 & rb2 & Hs2 & Hbu2 & Hso2 & Hbo2 & Hsc2 & Hbc2 & He2 & -> & ->).
  rewrite app_nil_r in *. subst ds2 db2.
  rewrite Hso in Hso2, Hsc2, He2. rewrite Hbo in Hbo2, Hbc2, He2.
  rewrite stays_of_stays in Hso2, Hbo2.
  rewrite !fills_of_stays in Hsc2, Hbc2, He2. rewrite app_nil_r in Hsc2, Hbc2.
  rewrite <- Hso in Hso2. rewrite <- Hbo in Hbo2.
  rewrite ?fills_of_stays in He2. cbn [app] in He2.
  split; [|exact He2].
  apply book_eq. intros [|] [| |]; try congruence;
    apply (inv_cancelled _ _ _ _ _ _ Hinv2).
Qed.

(** X6.  The only exceptions that leave [execute_orders] come from the
    look-up of the market data of an open order placed before the date of
    the call, on a business day: [AttributeError] when there is no data
    frame, [KeyError] when the data frame has no row for the ticker of
    the order.  That order is still in its [OPEN] bucket.  In particular
    the removal of an order from its bucket never raises. *)
Theorem execute_orders_exceptions commission book data current_date cash e st' :
  execute_orders commission book data current_date cash = (Raised e, st') ->
  is_business_day current_date = true /\
  exists a order,
    In order (bucket book a OPEN) /\
    In order (bucket (order_book st') a OPEN) /\
    initiated_at order < current_date /\
    match data with
    | None => e = AttributeError
    | Some df => e = KeyError /\ df !! ticker order = None
    end.
Proof.
  intros Hrun. destruct (is_business_day current_date) eqn:Hb.
  2: { unfold execute_orders in Hrun. now rewrite Hb in Hrun. }
  split; [reflexivity|].
  destruct (execute_orders_progress _ _ _ _ _ _ _ Hb Hrun)
    as (ds & rs & db & rb & Hs & Hbu & Hso & Hbo & _ & _ & _
        & order & rest' & Hwhere & Hd & Hrow).
  assert (match data with
          | None => e = AttributeError
          | Some df => e = KeyError /\ df !! ticker order = None
          end) as He.
  { unfold data_loc in Hrow. destruct data as [df|]; [|congruence].
    destruct (df !! ticker order); [discriminate|]. split; congruence. }
  destruct Hwhere as [[-> ->]|[-> ->]].
  - exists SELL, order. rewrite Hs, Hso.
    repeat split; auto; apply in_or_app; right; now left.
  - exists BUY, order. rewrite Hbu, Hbo.
    repeat split; auto; apply in_or_app; right; now left.
Qed.

(** X7.  On a business day [execute_orders] returns exactly when the data
    frame has a row for the ticker of every open order placed before
    that day. *)
Theorem execute_orders_returns_iff commission book data current_date cash :
  is_business_day current_date = true ->
  (exists st', execute_orders commission book data current_date cash = (Returned, st'))
  <->
  (forall a order,
      In order (bucket book a OPEN) -> initiated_at order < current_date ->
      has_data data order).
Proof.
  intros Hb. split.
  - intros [st' Hrun]. now apply (execute_orders_returned_data _ _ _ _ _ _ Hb Hrun).
  - apply execute_orders_returns.
Qed.

(** X8.  [execute_orders] fills market and limit orders only: an open
    stop-limit order, or an open order of the base class, is still in its
    [OPEN] bucket when the call ends, whatever the market data. *)
Theorem execute_orders_other_classes commission book data current_date cash out st' :
  execute_orders commission book data current_date cash = (out, st') ->
  (forall order',
      In order' (executed_orders st') ->
      order_class order' = MarketOrder \/
      exists limit_price tif, order_class order' = LimitOrder limit_price tif) /\
  (forall a order,
      In order (bucket book a OPEN) ->
      order_class order = PlainOrder \/
      (exists stop_price limit_price tif,
          order_class order = StopLimitOrder stop_price limit_price tif) ->
      In order (bucket (order_book st') a OPEN)).
Proof.
  intros Hrun. pose proof (execute_orders_invariant _ _ _ _ _ _ _ Hrun) as Hinv.
  split.
  - intros order' Hin.
    destruct (inv_executed _ _ _ _ _ _ Hinv order' Hin)
      as (a & order & price & _ & (_ & row & _ & Hf) & ->).
    cbn [order_class completed]. eapply fill_decision_class. exact Hf.
  - intros a order Hin Hcls.
    eapply execute_orders_stays_open; [exact Hrun|exact Hin|].
    intros price (_ & row & _ & Hf).
    apply fill_decision_class in Hf.
    destruct Hcls as [Hc|(sp & lp & tif & Hc)], Hf as [Hf|(lp' & tif' & Hf)];
      congruence.
Qed.

Lemma fill_decision_more_cash commission cash cash' order row price :
  (cash <= cash')%Q ->
  fill_decision commission cash order row = Some price ->
  fill_decision commission cash' order row = Some price.
Proof.
  intros Hle. unfold fill_decision.
  assert (forall q p, verify_funds commission q p cash = true ->
                      verify_funds commission q p cash' = true) as Hmono.
  { intros q p H. apply verify_funds_spec in H. apply verify_funds_spec.
    eapply Qle_trans; eassumption. }
  destruct (order_class order) as [| |lp tif|sp lp tif]; try discriminate.
  - destruct (verify_funds commission (quantity order) _ cash) eqn:E; [|discriminate].
    now rewrite (Hmono _ _ E).
  - destruct (verify_funds commission (quantity order) lp cash) eqn:E; [|discriminate].
    now rewrite (Hmono _ _ E).
Qed.

(** X9.  More cash never prevents a fill: when a call on a business day
    returns, the same call made with at least as much cash returns too,
    and every order the first one fills is filled by the second, at the
    same price. *)
Theorem execute_orders_more_cash commission book data current_date cash cash' st1 :
  is_business_day current_date = true ->
  (cash <= cash')%Q ->
  execute_orders commission book data current_date cash = (Returned, st1) ->
  exists st2,
    execute_orders commission book data current_date cash' = (Returned, st2) /\
    forall order', In order' (executed_orders st1) -> In order' (executed_orders st2).
Proof.
  intros Hb Hle Hrun.
  destruct (execute_orders_returns commission data current_date cash' book)
    as [st2 Hrun2].
  { now apply (execute_orders_returned_data _ _ _ _ _ _ Hb Hrun). }
  exists st2. split; [exact Hrun2|].
  intros order' Hin.
  pose proof (execute_orders_invariant _ _ _ _ _ _ _ Hrun) as Hinv.
  destruct (inv_executed _ _ _ _ _ _ Hinv order' Hin)
    as (a & order & price & Hopen & (Hd & row & Hrow & Hf) & ->).
  destruct (execute_orders_returned _ _ _ _ _ _ Hb Hrun2) as [_ Hfill].
  apply (Hfill a); [exact Hopen|].
  split; [exact Hd|]. exists row. split; [exact Hrow|].
  eapply fill_decision_more_cash; eassumption.
Qed.

(** X10.  Every order in the list [executed_orders] of a call carries
    the status [COMPLETE], the date of the call as its execution date,
    which is later than its initiation date, a fill price, and as
    commission paid the commission of its quantity at that price. *)
Theorem execute_orders_completes commission book data current_date cash out st' :
  execute_orders commission book data current_date cash = (out, st') ->
  forall order',
    In order' (executed_orders st') ->
    status order' = COMPLETE /\
    executed_at order' = Some current_date /\
    initiated_at order' < current_date /\
    exists price,
      fill_price order' = Some price /\
      commission_paid order' = commission (inject_Z (quantity order')) price.
Proof.
  intros Hrun order' Hin.
  pose proof (execute_orders_invariant _ _ _ _ _ _ _ Hrun) as Hinv.
  destruct (inv_executed _ _ _ _ _ _ Hinv order' Hin)
    as (a & order & price & _ & (Hd & _) & ->).
  cbn. repeat split; [exact Hd|]. now exists price.
Qed.

(** ** Placing a sequence of orders *)

(** X11.  Placing orders one after the other adds to each [OPEN] bucket
    the orders of its action, in the order of submission, after the
    orders it held; the [COMPLETE] and [CANCELLED] buckets are as they
    were. *)
Theorem place_orders_buckets book orders a :
  bucket (foldl place_order book orders) a OPEN
  = bucket book a OPEN ++ filter (fun order => action order = a) orders /\
  bucket (foldl place_order book orders) a COMPLETE = bucket book a COMPLETE /\
  bucket (foldl place_order book orders) a CANCELLED = bucket book a CANCELLED.
Proof.
  revert book. induction orders as [|o orders IH]; intros book; cbn [foldl].
  - rewrite filter_nil, app_nil_r. auto.
  - destruct (IH (place_order book o)) as (Ho & Hc & Hx).
    rewrite Ho, Hc, Hx. unfold place_order.
    rewrite !(bucket_set_bucket_ne _ _ OPEN _ a COMPLETE) by congruence.
    rewrite !(bucket_set_bucket_ne _ _ OPEN _ a CANCELLED) by congruence.
    repeat split.
    destruct (decide (action o = a)) as [<-|Hne].
    + rewrite bucket_set_bucket_eq, filter_cons_True by reflexivity.
      now rewrite <- app_assoc.
    + rewrite bucket_set_bucket_ne by congruence.
      now rewrite filter_cons_False.
Qed.

(** ** Positions *)

(** X12.  [Position] accepts every order that [execute_orders] has
    filled: the constructor does not raise and gives the position the
    ticker and the quantity of the order and, as market value, the
    quantity times the fill price. *)
Theorem Position_of_executed commission book data current_date cash out st' order' :
  execute_orders commission book data current_date cash = (out, st') ->
  In order' (executed_orders st') ->
  exists price,
    fill_price order' = Some price /\
    Position order'
    = Ok (Some (mkPositionAttrs (ticker order') (quantity order')
                  (inject_Z (quantity order') * price) 0 0)).
Proof.
  intros Hrun Hin.
  pose proof (execute_orders_invariant _ _ _ _ _ _ _ Hrun) as Hinv.
  destruct (inv_executed _ _ _ _ _ _ Hinv order' Hin)
    as (a & order & price & _ & (_ & row & _ & Hf) & ->).
  exists price. split; [reflexivity|].
  unfold Position. cbn [order_class status fill_price ticker quantity completed].
  destruct (fill_decision_class _ _ _ _ _ Hf) as [->|(lp & tif & ->)]; reflexivity.
Qed.

(** [Position] sets no attribute for an order that is not
    complete, such as every order fresh from its constructor, and for an
    order that is neither a market nor a limit order. *)
Lemma Position_of_open order :
  status order <> COMPLETE \/
  order_class order = PlainOrder \/
  (exists stop_price limit_price tif,
      order_class order = StopLimitOrder stop_price limit_price tif) ->
  Position order = Ok None.
Proof.
  unfold Position. intros [Hs|[->|(sp & lp & tif & ->)]]; try reflexivity.
  destruct (status order); try contradiction;
    destruct (order_class order); reflexivity.
Qed.

(** ** The rows of the ledger *)


(** The row that [update_on_order] writes, from the last row [prev] of
    the curve. *)
Lemma update_on_order_Ok equity_curve current_date order equity_curve' :
  update_on_order equity_curve current_date order = Ok equity_curve' ->
  exists prev price row,
    iloc_last equity_curve = Ok prev /\ fill_price order = Some price /\
    equity_curve' = loc_set (LabelOf current_date) row equity_curve /\
    Date row = current_date /\
    (Cash row == Cash prev - commission_paid order + cash_flow order)%Q /\
    (Equity row == Equity prev - cash_flow order)%Q /\
    (Total_Value row == Cash row + Equity row)%Q /\
    (Commission_Paid row == Commission_Paid prev + commission_paid order)%Q.
Proof.
  unfold update_on_order, cash_flow.
  destruct (iloc_last equity_curve) as [prev|]; [|discriminate].
  destruct (fill_price order) as [price|]; [|discriminate].
  destruct (action order); intros [= <-]; exists prev, price;
    eexists; (split; [reflexivity|]); (split; [reflexivity|]);
    (split; [reflexivity|]); cbn; repeat split; ring.
Qed.


Lemma loc_set_labels label row equity_curve :
  map fst (loc_set label row equity_curve)
  = if bool_decide (label ∈ map fst equity_curve)
    then map fst equity_curve else map fst equity_curve ++ [label].
Proof.
  unfold loc_set.
  destruct (existsb _ equity_curve) eqn:E.
  - rewrite bool_decide_eq_true_2.
    + rewrite map_map. apply map_ext. intros [l r]. cbn.
      destruct (decide (l = label)); cbn; congruence.
    + apply existsb_exists in E as (x & Hx & Hl). apply bool_decide_eq_true in Hl.
      apply list_elem_of_In, in_map_iff. now exists x.
  - rewrite bool_decide_eq_false_2.
    + now rewrite map_app.
    + intros (x & Hl & Hx)%list_elem_of_In%in_map_iff.
      assert (existsb (fun r => bool_decide (fst r = label)) equity_curve = true)
        as E'; [|congruence].
      apply existsb_exists. exists x. split; [exact Hx|].
      now apply bool_decide_eq_true.
Qed.

Lemma loc_set_head label row first equity_curve :
  fst first <> label ->
  exists rest, loc_set label row (first :: equity_curve) = first :: rest.
Proof.
  intros Hne. unfold loc_set. destruct (existsb _ (first :: equity_curve)).
  - cbn [map]. destruct (decide (fst first = label)); [contradiction|]. eauto.
  - cbn. eauto.
Qed.

(** X14.  Whatever fills are applied to a ledger, the first row of its
    equity curve is the row seeded by the constructor, under the label
    ["Date"], and every later row is labelled with a date that labels no
    other row: the fills of one date share one row. *)
Theorem ledger_one_row_per_date start_date cash equity_curve :
  ledger_state start_date cash equity_curve ->
  exists rest,
    equity_curve = StatsHandler start_date cash ++ rest /\
    NoDup (map fst rest) /\
    forall label, In label (map fst rest) -> exists dt, label = LabelOf dt.
Proof.
  induction 1 as [|curve d order curve' _ IH Hup].
  - exists []. rewrite app_nil_r. repeat split; [constructor | intros ? []].
  - destruct IH as (rest & -> & Hnd & Hlab).
    apply update_on_order_Ok in Hup as (prev & price & new & _ & _ & -> & _).
    cbn [StatsHandler app].
    destruct (loc_set_head (LabelOf d) new
                (LabelDate, mkLedgerEntry start_date cash 0 cash 0) rest)
      as [rest' Heq]; [discriminate|].
    exists rest'. rewrite Heq. split; [reflexivity|].
    pose proof (loc_set_labels (LabelOf d) new
                  ((LabelDate, mkLedgerEntry start_date cash 0 cash 0) :: rest)) as Hl.
    rewrite Heq in Hl. cbn [map fst] in Hl.
    destruct (bool_decide _) eqn:E in Hl.
    + injection Hl as ->. auto.
    + apply bool_decide_eq_false in E.
      injection Hl as ->. split.
      * apply NoDup_app. split; [exact Hnd|]. split.
        -- intros l Hin [<-|[]]%list_elem_of_In. apply E. now right.
        -- apply NoDup_singleton.
      * intros label [Hin|[<-|[]]]%in_app_or; eauto.
Qed.

(** ** Fills applied in the order of their dates *)

Lemma iloc_last_snoc (front : list (RowLabel * LedgerEntry)) label row :
  iloc_last (front ++ [(label, row)]) = Ok row.
Proof. unfold iloc_last. now rewrite last_snoc. Qed.




(** X16.  A fill booked for a date whose row is not the last row of the
    curve overwrites that row and leaves the last row alone:
    [daily_stats] returns the same row as before the fill, and the curve
    has as many rows as before. *)
Theorem update_on_order_earlier_date front label prev current_date order :
  is_Some (fill_price order) ->
  In (LabelOf current_date) (map fst front) ->
  label <> LabelOf current_date ->
  exists equity_curve,
    update_on_order (front ++ [(label, prev)]) current_date order = Ok equity_curve /\
    daily_stats equity_curve = Ok prev /\
    length equity_curve = length (front ++ [(label, prev)]).
Proof.
  intros [price Hp] Hin Hne.
  destruct (update_on_order (front ++ [(label, prev)]) current_date order)
    as [curve|e] eqn:Hup.
  2: { unfold update_on_order in Hup. rewrite iloc_last_snoc, Hp in Hup.
       destruct (action order); discriminate. }
  exists curve. split; [reflexivity|].
  apply update_on_order_Ok in Hup as (_ & _ & row & _ & _ & -> & _).
  unfold loc_set.
  assert (existsb (fun r => bool_decide (fst r = LabelOf current_date))
            (front ++ [(label, prev)]) = true) as ->.
  { apply existsb_exists. apply in_map_iff in Hin as (x & Hl & Hx).
    exists x. split; [apply in_or_app; now left|]. now apply bool_decide_eq_true. }
  split; [|now rewrite length_map].
  rewrite map_app. cbn [map fst].
  destruct (decide (label = LabelOf current_date)); [contradiction|].
  apply iloc_last_snoc.
Qed.

Lemma update_on_orders_returns start_date cash fills :
  forall equity_curve,
    ledger_state start_date cash equity_curve ->
    Forall (fun f => is_Some (fill_price (snd f))) fills ->
    exists equity_curve',
      update_on_orders equity_curve fills = Ok equity_curve' /\
      ledger_state start_date cash equity_curve'.
Proof.
  induction fills as [|[dt order] fills IH]; intros curve Hst Hfilled.
  - exists curve. now split.
  - apply Forall_cons in Hfilled as [Hp Hfilled]. cbn [snd] in Hp.
    destruct (update_on_order_returns _ _ _ dt order Hst Hp) as [curve1 Hup].
    cbn [update_on_orders]. rewrite Hup.
    apply IH; [|exact Hfilled]. eapply ledger_update; eassumption.
Qed.

(** X17.  The orders that a call of [execute_orders] has filled can all
    be booked: applied to a ledger for the date of the call, one after
    the other, they never make [update_on_order] raise. *)
Theorem executed_orders_are_booked commission book data current_date cash out st'
    start_date cash0 equity_curve :
  ledger_state start_date cash0 equity_curve ->
  execute_orders commission book data current_date cash = (out, st') ->
  exists equity_curve',
    update_on_orders equity_curve (map (pair current_date) (executed_orders st'))
    = Ok equity_curve' /\
    ledger_state start_date cash0 equity_curve'.
Proof.
  intros Hst Hrun. apply update_on_orders_returns; [exact Hst|].
  pose proof (execute_orders_invariant _ _ _ _ _ _ _ Hrun) as Hinv.
  apply Forall_forall. intros [dt o'] (x & [= <- <-] & Hx)%list_elem_of_In%in_map_iff.
  destruct (inv_executed _ _ _ _ _ _ Hinv x Hx) as (a & o & price & _ & _ & ->).
  cbn. eauto.
Qed.

(** ** Holdings *)

(** X18.  A sale of a ticker that is held never changes the cost of the
    holding: it sets the price to the fill price and takes the quantity
    sold off the quantity held, and it removes the holding exactly when
    no quantity is left. *)
Theorem update_holdings_sell portfolio order price h :
  portfolio !! ticker order = Some h ->
  action order = SELL ->
  Reversal.update_holdings portfolio order price !! ticker order
  = if Qeq_bool (Reversal.Quantity h - inject_Z (quantity order)) 0
    then None
    else Some (Reversal.mkHolding price
                 (Reversal.Quantity h - inject_Z (quantity order))%Q
                 (Reversal.Cost h) (Reversal.Market_Value h)).
Proof.
  intros Hh Ha. unfold Reversal.update_holdings. rewrite Hh, Ha.
  destruct (Qeq_bool _ 0).
  - apply lookup_delete_eq.
  - apply lookup_insert_eq.
Qed.

(** X19.  A fill changes the holding of its own ticker only: the rows of
    the other tickers are as they were. *)
Theorem update_holdings_other portfolio order price t :
  t <> ticker order ->
  Reversal.update_holdings portfolio order price !! t = portfolio !! t.
Proof.
  intros Hne. unfold Reversal.update_holdings.
  destruct (portfolio !! ticker order) as [h|].
  - destruct (action order).
    + destruct (Qeq_bool _ 0).
      * now apply lookup_delete_ne.
      * now apply lookup_insert_ne.
    + now apply lookup_insert_ne.
  - now apply lookup_insert_ne.
Qed.

(** X20.  A fill for a ticker that is not held creates a holding of the
    quantity of the order, at the fill price as price and as cost,
    whether the order is a purchase or a sale: the sale of a ticker that
    is not held is booked as a purchase. *)
Theorem update_holdings_new portfolio order price :
  portfolio !! ticker order = None ->
  Reversal.update_holdings portfolio order price !! ticker order
  = Some (Reversal.mkHolding price (inject_Z (quantity order)) price
            (inject_Z (quantity order) * price)%Q).
Proof.
  intros Hh. unfold Reversal.update_holdings. rewrite Hh. apply lookup_insert_eq.
Qed.

(** X21.  A fill for a ticker that is not held, followed by the sale of
    the quantity of that fill, gives back the portfolio as it was,
    whatever the two fill prices. *)
Theorem update_holdings_buy_then_sell portfolio bought sold price price' :
  portfolio !! ticker bought = None ->
  ticker sold = ticker bought ->
  action sold = SELL ->
  quantity sold = quantity bought ->
  Reversal.update_holdings (Reversal.update_holdings portfolio bought price)
    sold price'
  = portfolio.
Proof.
  intros Hh Ht Ha Hq.
  unfold Reversal.update_holdings at 2. rewrite Hh.
  unfold Reversal.update_holdings. rewrite Ht, lookup_insert_eq, Ha, Hq.
  cbn [Reversal.Quantity].
  assert (Qeq_bool (inject_Z (quantity bought) - inject_Z (quantity bought)) 0 = true)
    as -> by (apply Qeq_bool_iff; ring).
  now apply delete_insert_id.
Qed.

(** ** A placed order and the next call *)


(** ** The further properties on the scenarios *)

Import MoreScenarios.

Lemma tuesday_is_business_day : is_business_day tuesday = true.
Proof. reflexivity. Defined.

Lemma call_both_returned :
  execute_orders flat_fee book_both (Some quotes) tuesday 100000
  = (Returned, snd call_both).
Proof. reflexivity. Defined.

Lemma call_limits_returned :
  execute_orders flat_fee book_limits (Some quotes_44_46) tuesday 100000
  = (Returned, snd call_limits).
Proof. reflexivity. Defined.

Lemma call_nope_raised :
  execute_orders flat_fee book_nope (Some quotes) tuesday 100000
  = (Raised KeyError, snd call_nope).
Proof. reflexivity. Defined.

Lemma filled_buy_executed : In filled_buy (executed_orders (snd call_both)).
Proof. right. left. reflexivity. Defined.

Lemma execute_orders_returned_book_witness :
  is_business_day tuesday = true /\
  call_limits = (Returned, snd call_limits) /\
  bucket (order_book (snd call_limits)) BUY OPEN
  = stays_of flat_fee (Some quotes_44_46) tuesday 100000 (bucket book_limits BUY OPEN) /\
  bucket (order_book (snd call_limits)) BUY COMPLETE
  = bucket book_limits BUY COMPLETE
    ++ fills_of flat_fee (Some quotes_44_46) tuesday 100000
         (bucket book_limits BUY OPEN) /\
  bucket (order_book (snd call_limits)) BUY CANCELLED
  = bucket book_limits BUY CANCELLED.
Proof.
  split; [exact tuesday_is_business_day|]. split; [exact call_limits_returned|].
  exact (execute_orders_returned_book _ _ _ _ _ _ tuesday_is_business_day
           call_limits_returned BUY).
Defined.

Lemma execute_orders_returned_list_witness :
  is_business_day tuesday = true /\
  call_both = (Returned, snd call_both) /\
  executed_orders (snd call_both)
  = fills_of flat_fee (Some quotes) tuesday 100000 (bucket book_both SELL OPEN)
    ++ fills_of flat_fee (Some quotes) tuesday 100000 (bucket book_both BUY OPEN).
Proof.
  split; [exact tuesday_is_business_day|]. split; [exact call_both_returned|].
  exact (execute_orders_returned_list _ _ _ _ _ _ tuesday_is_business_day
           call_both_returned).
Defined.

Lemma execute_orders_commits_witness :
  call_both = (Returned, snd call_both) /\
  exists sold bought,
    executed_orders (snd call_both) = sold ++ bought /\
    bucket (order_book (snd call_both)) SELL COMPLETE
    = bucket book_both SELL COMPLETE ++ sold /\
    bucket (order_book (snd call_both)) BUY COMPLETE
    = bucket book_both BUY COMPLETE ++ bought.
Proof.
  split; [exact call_both_returned|].
  exact (execute_orders_commits _ _ _ _ _ _ _ call_both_returned).
Defined.

Lemma execute_orders_conserves_witness :
  call_nope = (Raised KeyError, snd call_nope) /\
  (length (bucket (order_book (snd call_nope)) SELL OPEN)
   + length (bucket (order_book (snd call_nope)) SELL COMPLETE)
   = length (bucket book_nope SELL OPEN) + length (bucket book_nope SELL COMPLETE))%nat /\
  bucket (order_book (snd call_nope)) SELL OPEN `sublist_of` bucket book_nope SELL OPEN.
Proof.
  split; [exact call_nope_raised|].
  exact (execute_orders_conserves _ _ _ _ _ _ _ call_nope_raised SELL).
Defined.

Lemma execute_orders_twice_witness :
  is_business_day tuesday = true /\
  call_limits = (Returned, snd call_limits) /\
  exists st2,
    execute_orders flat_fee (order_book (snd call_limits)) (Some quotes_44_46)
      tuesday 100000
    = (Returned, st2) /\
    order_book st2 = order_book (snd call_limits) /\
    executed_orders st2 = [].
Proof.
  split; [exact tuesday_is_business_day|]. split; [exact call_limits_returned|].
  exact (execute_orders_twice _ _ _ _ _ _ tuesday_is_business_day call_limits_returned).
Defined.

Lemma execute_orders_exceptions_witness :
  call_nope = (Raised KeyError, snd call_nope) /\
  is_business_day tuesday = true /\
  exists a order,
    In order (bucket book_nope a OPEN) /\
    In order (bucket (order_book (snd call_nope)) a OPEN) /\
    initiated_at order < tuesday /\
    (KeyError = KeyError /\ quotes !! ticker order = None).
Proof.
  split; [exact call_nope_raised|].
  exact (execute_orders_exceptions _ _ _ _ _ _ _ call_nope_raised).
Defined.

Lemma execute_orders_returns_iff_witness :
  is_business_day tuesday = true /\
  ((exists st',
       execute_orders flat_fee book_both (Some quotes) tuesday 100000 = (Returned, st'))
   <->
   (forall a order,
       In order (bucket book_both a OPEN) -> initiated_at order < tuesday ->
       has_data (Some quotes) order)).
Proof.
  split; [exact tuesday_is_business_day|].
  exact (execute_orders_returns_iff flat_fee book_both (Some quotes) tuesday 100000
           tuesday_is_business_day).
Defined.

Lemma execute_orders_other_classes_witness :
  call_stop = (Returned, snd call_stop) /\
  In stop_limit (bucket book_stop BUY OPEN) /\
  In stop_limit (bucket (order_book (snd call_stop)) BUY OPEN).
Proof.
  assert (execute_orders flat_fee book_stop (Some quotes) tuesday 100000
          = (Returned, snd call_stop)) as Hrun by reflexivity.
  assert (In stop_limit (bucket book_stop BUY OPEN)) as Hin
    by (right; left; reflexivity).
  split; [exact Hrun|]. split; [exact Hin|].
  refine (proj2 (execute_orders_other_classes _ _ _ _ _ _ _ Hrun) BUY stop_limit Hin _).
  right. exists 48%Q, 52%Q, GTC. reflexivity.
Defined.

Lemma execute_orders_more_cash_witness :
  is_business_day tuesday = true /\
  (100000 <= 200000)%Q /\
  call_both = (Returned, snd call_both) /\
  exists st2,
    execute_orders flat_fee book_both (Some quotes) tuesday 200000 = (Returned, st2) /\
    forall order',
      In order' (executed_orders (snd call_both)) -> In order' (executed_orders st2).
Proof.
  assert (100000 <= 200000)%Q as Hle by (apply Qle_bool_iff; reflexivity).
  split; [exact tuesday_is_business_day|]. split; [exact Hle|].
  split; [exact call_both_returned|].
  exact (execute_orders_more_cash _ _ _ _ _ _ _ tuesday_is_business_day Hle
           call_both_returned).
Defined.

Lemma execute_orders_completes_witness :
  call_both = (Returned, snd call_both) /\
  In filled_buy (executed_orders (snd call_both)) /\
  status filled_buy = COMPLETE /\
  executed_at filled_buy = Some tuesday /\
  initiated_at filled_buy < tuesday /\
  exists price,
    fill_price filled_buy = Some price /\
    commission_paid filled_buy = flat_fee (inject_Z (quantity filled_buy)) price.
Proof.
  split; [exact call_both_returned|]. split; [exact filled_buy_executed|].
  exact (execute_orders_completes _ _ _ _ _ _ _ call_both_returned
           filled_buy filled_buy_executed).
Defined.

Lemma Position_of_executed_witness :
  call_both = (Returned, snd call_both) /\
  In filled_buy (executed_orders (snd call_both)) /\
  exists price,
    fill_price filled_buy = Some price /\
    Position filled_buy
    = Ok (Some (mkPositionAttrs (ticker filled_buy) (quantity filled_buy)
                  (inject_Z (quantity filled_buy) * price) 0 0)).
Proof.
  split; [exact call_both_returned|]. split; [exact filled_buy_executed|].
  exact (Position_of_executed _ _ _ _ _ _ _ filled_buy call_both_returned
           filled_buy_executed).
Defined.



Lemma ledger_one_row_per_date_witness :
  ledger_state sunday 100000 curve_after_buy /\
  exists rest,
    curve_after_buy = StatsHandler sunday 100000 ++ rest /\
    NoDup (map fst rest) /\
    forall label, In label (map fst rest) -> exists dt, label = LabelOf dt.
Proof.
  split; [exact curve_after_buy_state|].
  exact (ledger_one_row_per_date _ _ _ curve_after_buy_state).
Defined.




(** The two fills of Tuesday leave 95498 of cash and 4500 of equity. *)
Example tuesday_fills_booked :
  update_on_orders (StatsHandler sunday 100000) tuesday_fills
  = Ok (StatsHandler sunday 100000
        ++ [(LabelOf tuesday,
             {| Date := tuesday; Cash := 95498; Equity := 4500;
                Total_Value := 99998; Commission_Paid := 2 |})]).
Proof. reflexivity. Qed.

Lemma update_on_order_earlier_date_witness :
  is_Some (fill_price sold_on_monday) /\
  In (LabelOf monday) (map fst monday_front) /\
  LabelOf tuesday <> LabelOf monday /\
  exists equity_curve,
    update_on_order (monday_front ++ [(LabelOf tuesday, row_after_buy)])
      monday sold_on_monday
    = Ok equity_curve /\
    daily_stats equity_curve = Ok row_after_buy /\
    length equity_curve = length (monday_front ++ [(LabelOf tuesday, row_after_buy)]).
Proof.
  assert (is_Some (fill_price sold_on_monday)) as Hp by (eexists; reflexivity).
  assert (In (LabelOf monday) (map fst monday_front)) as Hin
    by (right; left; reflexivity).
  assert (LabelOf tuesday <> LabelOf monday) as Hne by discriminate.
  split; [exact Hp|]. split; [exact Hin|]. split; [exact Hne|].
  exact (update_on_order_earlier_date monday_front (LabelOf tuesday) row_after_buy
           monday sold_on_monday Hp Hin Hne).
Defined.

Lemma executed_orders_are_booked_witness :
  ledger_state sunday 100000 (StatsHandler sunday 100000) /\
  call_both = (Returned, snd call_both) /\
  exists equity_curve',
    update_on_orders (StatsHandler sunday 100000)
      (map (pair tuesday) (executed_orders (snd call_both)))
    = Ok equity_curve' /\
    ledger_state sunday 100000 equity_curve'.
Proof.
  split; [exact (ledger_init sunday 100000)|]. split; [exact call_both_returned|].
  exact (executed_orders_are_booked _ _ _ _ _ _ _ _ _ _ (ledger_init sunday 100000)
           call_both_returned).
Defined.

Lemma update_holdings_sell_witness :
  holdings !! ticker sell_all = Some (Reversal.mkHolding 10 100 10 1000) /\
  action sell_all = SELL /\
  Reversal.update_holdings holdings sell_all 20 !! ticker sell_all
  = if Qeq_bool (100 - inject_Z (quantity sell_all)) 0
    then None
    else Some (Reversal.mkHolding 20 (100 - inject_Z (quantity sell_all))%Q 10 1000).
Proof.
  assert (holdings !! ticker sell_all = Some (Reversal.mkHolding 10 100 10 1000))
    as Hh by reflexivity.
  split; [exact Hh|]. split; [reflexivity|].
  exact (update_holdings_sell holdings sell_all 20 _ Hh eq_refl).
Defined.

Lemma update_holdings_other_witness :
  "OTHER"%string <> ticker sell_all /\
  Reversal.update_holdings holdings sell_all 20 !! "OTHER"%string
  = holdings !! "OTHER"%string.
Proof.
  assert ("OTHER"%string <> ticker sell_all) as Hne by discriminate.
  split; [exact Hne|].
  exact (update_holdings_other holdings sell_all 20 "OTHER" Hne).
Defined.

Lemma update_holdings_new_witness :
  (∅ : gmap string Reversal.Holding) !! ticker sell_acme = None /\
  Reversal.update_holdings ∅ sell_acme 50 !! ticker sell_acme
  = Some (Reversal.mkHolding 50 (inject_Z (quantity sell_acme)) 50
            (inject_Z (quantity sell_acme) * 50)%Q).
Proof.
  split; [reflexivity|].
  exact (update_holdings_new ∅ sell_acme 50 eq_refl).
Defined.

Lemma update_holdings_buy_then_sell_witness :
  (∅ : gmap string Reversal.Holding) !! ticker buy_acme = None /\
  ticker sell_all = ticker buy_acme /\
  action sell_all = SELL /\
  quantity sell_all = quantity buy_acme /\
  Reversal.update_holdings (Reversal.update_holdings ∅ buy_acme 50) sell_all 60 = ∅.
Proof.
  repeat (split; [reflexivity|]).
  exact (update_holdings_buy_then_sell ∅ buy_acme sell_all 50 60
           eq_refl eq_refl eq_refl eq_refl).
Defined.

